(** * Spherical Voronoi map: the label-raster pipeline of [backend/algorithm.py]
      and the request handler of [backend/main.py].

    Numbers: Python floats and NumPy [float64] values are modelled as real
    numbers ([R]); rounding is not modelled.  One-dimensional NumPy arrays are
    lists, two-dimensional arrays carry their shape next to a row-major
    buffer, as an [ndarray] does.  Exceptions are values of [exn] carried by
    [result]. *)

From Stdlib Require Import Reals Lra Lia.
From stdpp Require Import gmap strings list.

Open Scope R_scope.

(** ** Exceptions and results *)

Inductive exn : Type :=
  | LoadError (path : string)      (* raised by [gpd.read_file] *)
  | DatasetError (name : string)   (* raised by [gpd.datasets.get_path] *)
  | IndexError
  | ValueError
  | RenderError (msg : string).

Inductive result (A : Type) : Type :=
  | Ok (a : A)
  | Raise (e : exn).
Arguments Ok {A} a.
Arguments Raise {A} e.

#[global] Instance result_ret : MRet result := fun _ a => Ok a.

#[global] Instance result_bind : MBind result := fun _ _ k m =>
  match m with
  | Ok a => k a
  | Raise e => Raise e
  end.

#[global] Instance result_fmap : FMap result := fun _ _ f m =>
  match m with
  | Ok a => Ok (f a)
  | Raise e => Raise e
  end.

(** ** Python builtins [max] and [min] on two arguments

    [max(a, b)] keeps [a] unless [b > a]; [min(a, b)] keeps [a] unless
    [b < a]. *)

Definition py_max (a b : R) : R := if Rlt_dec a b then b else a.
Definition py_min (a b : R) : R := if Rlt_dec b a then b else a.

(** ** NumPy arrays *)

Record ndarray2 (A : Type) : Type := mk_ndarray2 {
  shape : nat * nat;
  flat : list A
}.
Arguments mk_ndarray2 {A} shape flat.
Arguments shape {A} _.
Arguments flat {A} _.

(** [a[i, j]] for a two-dimensional array in row-major order. *)
Definition get2 {A} (a : ndarray2 A) (i j : nat) : option A :=
  if bool_decide (i < fst (shape a))%nat && bool_decide (j < snd (shape a))%nat
  then flat a !! (i * snd (shape a) + j)%nat
  else None.

Definition ravel {A} (a : ndarray2 A) : list A := flat a.

Definition reshape {A} (l : list A) (s : nat * nat) : result (ndarray2 A) :=
  if (length l =? fst s * snd s)%nat
  then Ok (mk_ndarray2 s l)
  else Raise ValueError.

(** [np.linspace(start, stop, num)] with the default [endpoint=True]:
    [arange(num) * step + start] with [step = (stop - start) / (num - 1)],
    and the last sample overwritten by [stop]. *)
Definition linspace (start stop : R) (num : nat) : list R :=
  match num with
  | O => []
  | S O => [start]
  | S div =>
      let step := (stop - start) / INR div in
      map (fun i => INR i * step + start) (seq 0 div) ++ [stop]
  end.

(** [np.meshgrid(x, y)] with the default [indexing='xy']: both outputs have
    shape [(len(y), len(x))]; the first repeats [x] along the rows, the
    second repeats [y] along the columns. *)
Definition meshgrid (x y : list R) : ndarray2 R * ndarray2 R :=
  (mk_ndarray2 (length y, length x) (flat_map (fun _ => x) y),
   mk_ndarray2 (length y, length x) (flat_map (fun yi => map (fun _ => yi) x) y)).

(** Element-wise product of two one-dimensional arrays, with NumPy's
    broadcasting of a length-one operand. *)
Definition np_mul (a b : list R) : result (list R) :=
  if (length a =? length b)%nat then Ok (zip_with Rmult a b)
  else match a, b with
       | [a0], _ => Ok (map (Rmult a0) b)
       | _, [b0] => Ok (map (fun x => x * b0) a)
       | _, _ => Raise ValueError
       end.

Definition column_stack (x y z : list R) : result (list (R * R * R)) :=
  if (length x =? length y)%nat && (length y =? length z)%nat
  then Ok (zip_with (fun xy zi => (fst xy, snd xy, zi)) (zip x y) z)
  else Raise ValueError.

Definition deg2rad (d : R) : R := d * (PI / 180).

(** ** [geo_to_cartesian] *)

Definition geo_to_cartesian (lat_deg lon_deg : list R) : result (list (R * R * R)) :=
  let lat_rad := map deg2rad lat_deg in
  let lon_rad := map deg2rad lon_deg in
  x ← np_mul (map cos lat_rad) (map cos lon_rad);
  y ← np_mul (map cos lat_rad) (map sin lon_rad);
  let z := map sin lat_rad in
  column_stack x y z.

(** The projection of one (latitude, longitude) pair, as the specification
    writes it. *)
Definition project_point (p : R * R) : R * R * R :=
  let lat := deg2rad (fst p) in
  let lon := deg2rad (snd p) in
  (cos lat * cos lon, cos lat * sin lon, sin lat).

(** ** The reference dataset *)

(** A [GeoDataFrame] as far as the pipeline reads it: [total_bounds] is the
    array (minx, miny, maxx, maxy). *)
Record GeoDataFrame : Type := mk_frame {
  total_bounds : R * R * R * R
}.

(** Euclidean distance between two points of 3-space. *)
Definition dist3 (p q : R * R * R) : R :=
  let '(px, py, pz) := p in
  let '(qx, qy, qz) := q in
  sqrt ((px - qx) * (px - qx) + (py - qy) * (py - qy) + (pz - qz) * (pz - qz)).

(** [k] is the index of a site at minimal distance from [q]. *)
Definition nearest (sites : list (R * R * R)) (q : R * R * R) (k : nat) : Prop :=
  exists s, sites !! k = Some s /\
    forall m t, sites !! m = Some t -> dist3 q s <= dist3 q t.

(** What the drawing stage (lines 91-142 of [algorithm.py]) receives. *)
Record RenderInput : Type := mk_render_input {
  r_lon_grid : ndarray2 R;
  r_lat_grid : ndarray2 R;
  r_nearest_city : ndarray2 nat;
  r_points : list (R * R);
  r_use_colors : list string;
  r_world : GeoDataFrame;
  r_plugin : option string;
  r_fill_ocean : bool;
  r_extent : list R
}.

(** The local variables of [generate_voronoi_map] when line 89 has run. *)
Record Labels : Type := mk_labels {
  world : GeoDataFrame;
  extent_used : list R;
  lats : list R;
  lons : list R;
  lon_grid : ndarray2 R;
  lat_grid : ndarray2 R;
  nearest_city : ndarray2 nat
}.

(** The smart extent of lines 50-64: [not extent or len(extent) != 4]
    selects the bounding box of [world] widened by 5% on each side. *)
Definition auto_extent (w : GeoDataFrame) : list R :=
  let '(min_lon, min_lat, max_lon, max_lat) := total_bounds w in
  let margin_x := (max_lon - min_lon) * 0.05 in
  let margin_y := (max_lat - min_lat) * 0.05 in
  [ py_max (-180) (min_lon - margin_x);
    py_min 180 (max_lon + margin_x);
    py_max (-90) (min_lat - margin_y);
    py_min 90 (max_lat + margin_y) ].

Definition resolve_extent (extent : option (list R)) (w : GeoDataFrame) : list R :=
  match extent with
  | None => auto_extent w
  | Some e =>
      if (length e =? 0)%nat || negb (length e =? 4)%nat
      then auto_extent w
      else e
  end.

(** Line 50 on a caller extent whose entries need not be numbers: an entry
    is a number or some other JSON value, kept as its JSON text.  The test
    looks at the length only. *)
Inductive entry : Type :=
  | Num (x : R)
  | NotNum (json_text : string).

Definition resolve_extent_entries (extent : option (list entry))
    (w : GeoDataFrame) : list entry :=
  match extent with
  | None => map Num (auto_extent w)
  | Some e =>
      if (length e =? 0)%nat || negb (length e =? 4)%nat
      then map Num (auto_extent w)
      else e
  end.

(** Lines 70-80: the padded, clamped sampling grid.  Unpacking an extent
    that has not four entries raises [ValueError]. *)
Definition build_grid (extent : list R) (lat_n lon_n : nat)
  : result (list R * list R * ndarray2 R * ndarray2 R) :=
  match extent with
  | [view_min_lon; view_max_lon; view_min_lat; view_max_lat] =>
      let grid_pad_x := (view_max_lon - view_min_lon) * 0.1 in
      let grid_pad_y := (view_max_lat - view_min_lat) * 0.1 in
      let lats := linspace (py_max (-90) (view_min_lat - grid_pad_y))
                           (py_min 90 (view_max_lat + grid_pad_y)) lat_n in
      let lons := linspace (py_max (-180) (view_min_lon - grid_pad_x))
                           (py_min 180 (view_max_lon + grid_pad_x)) lon_n in
      let '(lon_grid, lat_grid) := meshgrid lons lats in
      Ok (lats, lons, lon_grid, lat_grid)
  | _ => Raise ValueError
  end.

(** [cities_coords[:, 0]] and [cities_coords[:, 1]]: an empty [points] gives
    a one-dimensional array, and indexing it with two indices raises. *)
Definition columns (points : list (R * R)) : result (list R * list R) :=
  match points with
  | [] => Raise IndexError
  | _ => Ok (map fst points, map snd points)
  end.

Section Pipeline.

(** The collaborators outside the repository: the file reader and the
    bundled dataset lookup of geopandas ([None] when they raise), the
    nearest-neighbour query of [scipy.spatial.cKDTree] for one query point
    with [k=1], and the drawing stage. *)
Variable read_file : string -> option GeoDataFrame.
Variable datasets_get_path : string -> option string.
Variable kd_query : list (R * R * R) -> R * R * R -> nat.
Variable png : Type.
Variable render : RenderInput -> result png.

(** Lines 42-46, with the paths handed to [read_file] in order. *)
Definition load_world (geojson_path : string)
  : result GeoDataFrame * list string :=
  match read_file geojson_path with
  | Some w => (Ok w, [geojson_path])
  | None =>
      match datasets_get_path "naturalearth_lowres" with
      | None => (Raise (DatasetError "naturalearth_lowres"), [geojson_path])
      | Some p =>
          match read_file p with
          | Some w => (Ok w, [geojson_path; p])
          | None => (Raise (LoadError p), [geojson_path; p])
          end
      end
  end.

(** Lines 50-89 once [world] is loaded. *)
Definition label_stage (w : GeoDataFrame) (points : list (R * R))
    (extent : option (list R)) (lat_n lon_n : nat) : result Labels :=
  let extent := resolve_extent extent w in
  '(lats, lons, lon_grid, lat_grid) ← build_grid extent lat_n lon_n;
  grid_points_cartesian ← geo_to_cartesian (ravel lat_grid) (ravel lon_grid);
  '(c0, c1) ← columns points;
  city_points_cartesian ← geo_to_cartesian c0 c1;
  let indices := map (kd_query city_points_cartesian) grid_points_cartesian in
  nearest_city ← reshape indices (shape lon_grid);
  mret (mk_labels w extent lats lons lon_grid lat_grid nearest_city).

(** Lines 41-89 of [generate_voronoi_map], all nine parameters in place.
    The second component lists the paths lines 42-46 hand to [read_file];
    the read of the plug-in map on line 115 belongs to the drawing stage
    and is not part of it. *)
Definition voronoi_labels (points : list (R * R)) (geojson_path : string)
    (extent : option (list R)) (point_colors : list string)
    (plugin_path : option string) (draw_plugin fill_ocean : bool)
    (lat_n lon_n : nat) : result Labels * list string :=
  let '(w, reads) := load_world geojson_path in
  (w ← w; label_stage w points extent lat_n lon_n, reads).

Definition generate_voronoi_map (points : list (R * R)) (geojson_path : string)
    (extent : option (list R)) (point_colors : list string)
    (plugin_path : option string) (draw_plugin fill_ocean : bool)
    (lat_n lon_n : nat) : result png * list string :=
  let '(labels, reads) :=
    voronoi_labels points geojson_path extent point_colors plugin_path
      draw_plugin fill_ocean lat_n lon_n in
  (l ← labels;
   render (mk_render_input (lon_grid l) (lat_grid l) (nearest_city l) points
             (take (length points) point_colors) (world l)
             (if draw_plugin then plugin_path else None)
             fill_ocean (extent_used l)),
   reads).

End Pipeline.

(** ** The request handler of [main.py] *)

Definition UPLOAD_DIR : string := "../uploads".

(** [os.path.join(a, b)] as [posixpath] computes it: a [b] that starts with
    the separator replaces [a]; otherwise [b] is appended, after a separator
    unless [a] is empty or already ends with one. *)
Definition starts_with_sep (s : string) : bool := String.prefix "/" s.

Definition ends_with_sep (s : string) : bool :=
  String.eqb (String.substring (String.length s - 1) 1 s) "/".

Definition path_join (a b : string) : string :=
  if starts_with_sep b then b
  else if (String.length a =? 0)%nat || ends_with_sep a then a +:+ b
  else a +:+ "/" +:+ b.

Definition RESOLUTION_MAP : gmap string (nat * nat) :=
  {[ "low" := (600, 1200)%nat;
     "medium" := (1200, 2400)%nat;
     "high" := (2400, 4800)%nat ]}.

(** [RESOLUTION_MAP.get(resolution, (1200, 2400))]. *)
Definition resolution_size (resolution : string) : nat * nat :=
  default (1200, 2400)%nat (RESOLUTION_MAP !! resolution).

(** The form of [POST /generate-map].  [json.loads] is not modelled: the
    form carries the three decoded values, or [None] when one of them fails
    to decode.  Uploaded files are represented by their names. *)
Record Form : Type := mk_form {
  decoded : option (list (R * R) * option (list R) * list string);
  draw_plugin : bool;
  fill_ocean : bool;
  resolution : string;
  file : string;
  plugin_file : option string
}.

Inductive response (png : Type) : Type :=
  | StreamingResponse (body : png)
  | HTTPException (status_code : nat) (detail : string).
Arguments StreamingResponse {png} body.
Arguments HTTPException {png} status_code detail.

Definition exn_str (e : exn) : string :=
  match e with
  | LoadError p => "cannot read " +:+ p
  | DatasetError n => "no bundled dataset " +:+ n
  | IndexError => "too many indices for array"
  | ValueError => "value error"
  | RenderError m => m
  end.

Section Api.

Variable read_file : string -> option GeoDataFrame.
Variable datasets_get_path : string -> option string.
Variable kd_query : list (R * R * R) -> R * R * R -> nat.
Variable png : Type.
Variable render : RenderInput -> result png.

Definition api_generate_map (f : Form) : response png :=
  match decoded f with
  | None => HTTPException 400 "JSON format error"
  | Some (points_list, extent_list, colors_list) =>
      if (length points_list <? 2)%nat || (30 <? length points_list)%nat
      then HTTPException 400 "Points count must be between 2 and 30"
      else if negb (length colors_list =? length points_list)%nat
      then HTTPException 400 "Colors count mismatch"
      else
        let file_path := path_join UPLOAD_DIR (file f) in
        let plugin_path :=
          (fun name => path_join UPLOAD_DIR ("plugin_" +:+ name))
            <$> plugin_file f in
        let '(lat_n, lon_n) := resolution_size (resolution f) in
        match fst (generate_voronoi_map read_file datasets_get_path kd_query
                     png render points_list file_path extent_list colors_list
                     plugin_path (draw_plugin f) (fill_ocean f) lat_n lon_n) with
        | Ok img_buf => StreamingResponse img_buf
        | Raise e => HTTPException 500 (exn_str e)
        end
  end.

End Api.

(** ** Specification-side vocabulary *)

(** A window [(lo, hi)] widened by the fraction [frac] of its width on each
    side. *)
Definition widen (frac : R) (w : R * R) : R * R :=
  (fst w - frac * (snd w - fst w), snd w + frac * (snd w - fst w)).

(** A window clamped to the legal interval [[lo, hi]]: its lower end is
    raised to [lo], its upper end lowered to [hi]. *)
Definition clamp_window (lo hi : R) (w : R * R) : R * R :=
  (Rmax lo (fst w), Rmin hi (snd w)).

(** A value clamped into the interval [[lo, hi]]. *)
Definition clamp_into (lo hi x : R) : R := Rmax lo (Rmin hi x).

(** The latitude and longitude windows of the grid: the extent widened by
    10% and clamped. *)
Definition lat_window (c d : R) : R * R := clamp_window (-90) 90 (widen 0.1 (c, d)).
Definition lon_window (a b : R) : R * R := clamp_window (-180) 180 (widen 0.1 (a, b)).

(** The [i]-th of [n] evenly spaced samples from [lo] to [hi]. *)
Definition sample (w : R * R) (n i : nat) : R :=
  fst w + INR i * ((snd w - fst w) / INR (n - 1)).

Definition legal_lat (x : R) : Prop := -90 <= x <= 90.
Definition legal_lon (x : R) : Prop := -180 <= x <= 180.

(** ** A first-minimum linear scan and a small environment, used to run the
       pipeline on concrete inputs *)

Fixpoint argmin_from (q : R * R * R) (sites : list (R * R * R))
    (i best : nat) (dbest : R) : nat :=
  match sites with
  | [] => best
  | s :: rest =>
      if Rlt_dec (dist3 q s) dbest
      then argmin_from q rest (S i) i (dist3 q s)
      else argmin_from q rest (S i) best dbest
  end.

Definition scan_query (sites : list (R * R * R)) (q : R * R * R) : nat :=
  match sites with
  | [] => O
  | s :: rest => argmin_from q rest 1 0 (dist3 q s)
  end.

(** A last-minimum linear scan: the same scan, keeping the later of two
    equidistant sites. *)
Fixpoint argmin_last_from (q : R * R * R) (sites : list (R * R * R))
    (i best : nat) (dbest : R) : nat :=
  match sites with
  | [] => best
  | s :: rest =>
      if Rle_dec (dist3 q s) dbest
      then argmin_last_from q rest (S i) i (dist3 q s)
      else argmin_last_from q rest (S i) best dbest
  end.

Definition scan_query_last (sites : list (R * R * R)) (q : R * R * R) : nat :=
  match sites with
  | [] => O
  | s :: rest => argmin_last_from q rest 1 0 (dist3 q s)
  end.

Definition demo_read_file (path : string) : option GeoDataFrame :=
  if String.eqb path "../uploads/world.geojson"
  then Some (mk_frame (0, 0, 10, 10))
  else if String.eqb path "naturalearth_lowres.shp"
  then Some (mk_frame (-180, -90, 180, 90))
  else None.

Definition demo_get_path (name : string) : option string :=
  if String.eqb name "naturalearth_lowres"
  then Some "naturalearth_lowres.shp"
  else None.

Definition demo_render (i : RenderInput) : result (ndarray2 nat) :=
  Ok (r_nearest_city i).

Definition demo_points : list (R * R) := [(0, 0); (0, 90)].

(** The form [f] with its resolution field replaced. *)
Definition with_resolution (f : Form) (r : string) : Form :=
  mk_form (decoded f) (draw_plugin f) (fill_ocean f) r (file f) (plugin_file f).

Definition demo_form (r : string) : Form :=
  mk_form (Some (demo_points, Some [0; 10; 0; 10], ["red"; "blue"]))
    false true r "world.geojson" None.

(** ** Further vocabulary *)

(** Inner product of two points of 3-space; for unit vectors it is the
    cosine of the angle between them. *)
Definition dot3 (p q : R * R * R) : R :=
  let '(px, py, pz) := p in
  let '(qx, qy, qz) := q in
  px * qx + py * qy + pz * qz.

Definition unit3 (p : R * R * R) : Prop := dot3 p p = 1.

(** A two-dimensional array whose buffer has as many entries as its shape
    announces. *)
Definition well_formed {A} (a : ndarray2 A) : Prop :=
  length (flat a) = (fst (shape a) * snd (shape a))%nat.

(** [np.arange(start, stop, 1)]: [ceil(stop - start)] values
    [start + i], none when that number is not positive.  The ceiling is
    written with [up], the least integer strictly above its argument. *)
Definition arange (start stop : R) : list R :=
  map (fun i => start + INR i) (seq 0 (Z.to_nat (1 - up (start - stop)))).

(** Line 98: the levels handed to [contourf]; line 105: the levels handed to
    [contour]. *)
Definition fill_levels (points : list (R * R)) : list R :=
  arange (-0.5) (INR (length points)).

Definition line_levels (points : list (R * R)) : list R :=
  arange 0.5 (INR (length points) - 0.5).

(** The three checks of the handler, in the order it makes them. *)
Inductive rejection (f : Form) : string -> Prop :=
  | reject_json :
      decoded f = None -> rejection f "JSON format error"
  | reject_count pts e cols :
      decoded f = Some (pts, e, cols) ->
      (length pts < 2 \/ 30 < length pts)%nat ->
      rejection f "Points count must be between 2 and 30"
  | reject_colors pts e cols :
      decoded f = Some (pts, e, cols) ->
      (2 <= length pts <= 30)%nat ->
      length cols <> length pts ->
      rejection f "Colors count mismatch".

(** * Properties *)

(** ** Lists as arrays *)

Lemma lookup_map {A B} (f : A -> B) (l : list A) (i : nat) :
  map f l !! i = f <$> (l !! i).
Proof. exact (list_lookup_fmap f l i). Qed.

Lemma length_flat_map_uniform {A B} (f : B -> list A) (c : nat) (y : list B) :
  (forall b, length (f b) = c) ->
  length (flat_map f y) = (length y * c)%nat.
Proof.
  intros Hc. induction y as [|b y IH]; simpl; [reflexivity|].
  rewrite length_app, Hc, IH. reflexivity.
Qed.

Lemma lookup_flat_map_uniform {A B} (f : B -> list A) (c : nat) (y : list B)
    (i j : nat) :
  (forall b, length (f b) = c) -> (j < c)%nat ->
  flat_map f y !! (i * c + j)%nat = y !! i ≫= fun b => f b !! j.
Proof.
  intros Hc Hj. revert i. induction y as [|b y IH]; intros i; simpl.
  - rewrite !lookup_nil. reflexivity.
  - destruct i as [|i]; simpl.
    + apply lookup_app_l. rewrite Hc. exact Hj.
    + rewrite lookup_app_r by (rewrite Hc; lia).
      rewrite Hc. replace (c + i * c + j - c)%nat with (i * c + j)%nat by lia.
      apply IH.
Qed.

Lemma py_max_Rmax a b : py_max a b = Rmax a b.
Proof.
  unfold py_max, Rmax. destruct (Rlt_dec a b), (Rle_dec a b); lra.
Qed.

Lemma py_min_Rmin a b : py_min a b = Rmin a b.
Proof.
  unfold py_min, Rmin. destruct (Rlt_dec b a), (Rle_dec a b); lra.
Qed.

(** ** The coordinate projector *)

Lemma np_mul_same_length (a b : list R) :
  length a = length b -> np_mul a b = Ok (zip_with Rmult a b).
Proof.
  intros H. unfold np_mul. rewrite H, Nat.eqb_refl. reflexivity.
Qed.

Lemma column_stack_same_length (x y z : list R) :
  length x = length y -> length y = length z ->
  column_stack x y z
  = Ok (zip_with (fun xy zi => (fst xy, snd xy, zi)) (zip x y) z).
Proof.
  intros H1 H2. unfold column_stack. rewrite H1, H2, Nat.eqb_refl. reflexivity.
Qed.

Lemma projection_rows (lat lon : list R) :
  length lat = length lon ->
  zip_with (fun xy zi => (fst xy, snd xy, zi))
    (zip (zip_with Rmult (map cos (map deg2rad lat)) (map cos (map deg2rad lon)))
         (zip_with Rmult (map cos (map deg2rad lat)) (map sin (map deg2rad lon))))
    (map sin (map deg2rad lat))
  = map project_point (zip lat lon).
Proof.
  revert lon. induction lat as [|la lat IH]; intros [|lo lon] Hlen;
    simpl in *; try discriminate; [reflexivity|].
  f_equal. apply IH. congruence.
Qed.

Lemma geo_to_cartesian_rows (lat_deg lon_deg : list R) :
  length lat_deg = length lon_deg ->
  geo_to_cartesian lat_deg lon_deg
  = Ok (map project_point (zip lat_deg lon_deg)).
Proof.
  intros Hlen. unfold geo_to_cartesian.
  rewrite !np_mul_same_length by (rewrite !length_map; exact Hlen).
  simpl. rewrite column_stack_same_length.
  - f_equal. apply projection_rows, Hlen.
  - rewrite !length_zip_with, !length_map. lia.
  - rewrite !length_zip_with, !length_map. lia.
Qed.

(** C8. For every batch of (latitude, longitude) pairs in degrees, given as
    two arrays of the same length, [geo_to_cartesian] returns one row per
    pair, and the row of the pair (lat, lon) is exactly
    (cos lat * cos lon, cos lat * sin lon, sin lat) with lat and lon
    converted from degrees to radians first; the rows depend on the two
    input arrays only. *)
Theorem geo_to_cartesian_spec (lat_deg lon_deg : list R) :
  length lat_deg = length lon_deg ->
  exists rows,
    geo_to_cartesian lat_deg lon_deg = Ok rows
    /\ length rows = length lat_deg
    /\ forall i lat lon,
         lat_deg !! i = Some lat -> lon_deg !! i = Some lon ->
         rows !! i
         = Some (cos (lat * (PI / 180)) * cos (lon * (PI / 180)),
                 cos (lat * (PI / 180)) * sin (lon * (PI / 180)),
                 sin (lat * (PI / 180))).
Proof.
  intros Hlen. rewrite (geo_to_cartesian_rows lat_deg lon_deg Hlen).
  eexists. split; [reflexivity|]. split.
  - rewrite length_map, length_zip_with. lia.
  - intros i lat lon Hlat Hlon.
    rewrite lookup_map, lookup_zip_with, Hlat, Hlon. reflexivity.
Qed.

Lemma geo_to_cartesian_spec_witness :
  exists rows,
    geo_to_cartesian [0; 90] [0; 45] = Ok rows
    /\ length rows = length [0; 90]
    /\ forall i lat lon,
         [0; 90] !! i = Some lat -> [0; 45] !! i = Some lon ->
         rows !! i
         = Some (cos (lat * (PI / 180)) * cos (lon * (PI / 180)),
                 cos (lat * (PI / 180)) * sin (lon * (PI / 180)),
                 sin (lat * (PI / 180))).
Proof. apply (geo_to_cartesian_spec [0; 90] [0; 45]). reflexivity. Defined.

(** ** [linspace] *)

Lemma linspace_length (start stop : R) (n : nat) :
  length (linspace start stop n) = n.
Proof.
  destruct n as [|[|n]]; [reflexivity..|].
  unfold linspace. rewrite length_app, length_map, length_seq. simpl. lia.
Qed.

Lemma linspace_lookup (start stop : R) (n i : nat) :
  (i < n)%nat ->
  linspace start stop n !! i = Some (sample (start, stop) n i).
Proof.
  intros Hi. unfold sample. simpl fst; simpl snd.
  destruct n as [|[|n]]; [lia| |].
  - destruct i; [|lia]. simpl. f_equal. lra.
  - unfold linspace.
    replace (S (S n) - 1)%nat with (S n) by lia.
    assert (Hne : INR (S n) <> 0) by (apply not_0_INR; lia).
    destruct (decide (i < S n)%nat) as [Hlt|Hge].
    + rewrite lookup_app_l by (rewrite length_map, length_seq; exact Hlt).
      rewrite lookup_map, lookup_seq_lt by exact Hlt. simpl. f_equal. lra.
    + assert (i = S n) by lia. subst i.
      rewrite lookup_app_r by (rewrite length_map, length_seq; lia).
      rewrite length_map, length_seq, Nat.sub_diag. simpl lookup. f_equal.
      field. exact Hne.
Qed.

Lemma sample_between (lo hi : R) (w : R * R) (n i : nat) :
  (i < n)%nat -> lo <= fst w <= hi -> lo <= snd w <= hi ->
  lo <= sample w n i <= hi.
Proof.
  intros Hi Hs He. unfold sample.
  destruct (decide (n = 1)%nat) as [->|Hn].
  - assert (i = O) by lia. subst i. simpl INR. lra.
  - assert (Hdiv : 0 < INR (n - 1)) by (apply lt_0_INR; lia).
    assert (Ht0 : 0 <= INR i) by apply pos_INR.
    assert (Ht1 : INR i <= INR (n - 1)) by (apply le_INR; lia).
    set (t := INR i / INR (n - 1)).
    assert (Htd : t * INR (n - 1) = INR i) by (unfold t; field; lra).
    assert (Ht : 0 <= t <= 1).
    { split.
      - apply (Rmult_le_reg_r (INR (n - 1))); lra.
      - apply (Rmult_le_reg_r (INR (n - 1))); lra. }
    replace (INR i * ((snd w - fst w) / INR (n - 1)))
      with (t * (snd w - fst w)) by (unfold t; field; lra).
    nra.
Qed.

(** ** The extent resolver and the grid builder *)

Lemma auto_extent_length (w : GeoDataFrame) : length (auto_extent w) = 4%nat.
Proof.
  unfold auto_extent. destruct (total_bounds w) as [[[a b] c] d]. reflexivity.
Qed.

Lemma resolve_extent_length (e : option (list R)) (w : GeoDataFrame) :
  length (resolve_extent e w) = 4%nat.
Proof.
  unfold resolve_extent. destruct e as [e|]; [|apply auto_extent_length].
  destruct (length e =? 0)%nat eqn:E0; simpl; [apply auto_extent_length|].
  destruct (length e =? 4)%nat eqn:E4; simpl; [|apply auto_extent_length].
  apply Nat.eqb_eq, E4.
Qed.

Lemma length_four {A} (l : list A) :
  length l = 4%nat -> exists a b c d, l = [a; b; c; d].
Proof.
  destruct l as [|a [|b [|c [|d [|x l]]]]]; simpl; intros H; try discriminate.
  exists a, b, c, d. reflexivity.
Qed.

Lemma build_grid_eq (a b c d : R) (lat_n lon_n : nat) :
  build_grid [a; b; c; d] lat_n lon_n
  = let lats := linspace (fst (lat_window c d)) (snd (lat_window c d)) lat_n in
    let lons := linspace (fst (lon_window a b)) (snd (lon_window a b)) lon_n in
    Ok (lats, lons, fst (meshgrid lons lats), snd (meshgrid lons lats)).
Proof.
  unfold build_grid, lat_window, lon_window, clamp_window, widen. simpl.
  rewrite !py_max_Rmax, !py_min_Rmin.
  replace ((b - a) * 0.1) with (0.1 * (b - a)) by lra.
  replace ((d - c) * 0.1) with (0.1 * (d - c)) by lra.
  reflexivity.
Qed.

Lemma meshgrid_shape (x y : list R) :
  shape (fst (meshgrid x y)) = (length y, length x)
  /\ shape (snd (meshgrid x y)) = (length y, length x).
Proof. split; reflexivity. Qed.

Lemma meshgrid_flat_length (x y : list R) :
  length (flat (fst (meshgrid x y))) = (length y * length x)%nat
  /\ length (flat (snd (meshgrid x y))) = (length y * length x)%nat.
Proof.
  split; simpl; apply length_flat_map_uniform; intros b;
    [reflexivity | apply length_map].
Qed.

Lemma meshgrid_lookup (x y : list R) (i j : nat) :
  (i < length y)%nat -> (j < length x)%nat ->
  flat (fst (meshgrid x y)) !! (i * length x + j)%nat = x !! j
  /\ flat (snd (meshgrid x y)) !! (i * length x + j)%nat = y !! i.
Proof.
  intros Hi Hj. simpl. split.
  - rewrite (lookup_flat_map_uniform _ (length x)) by (auto || lia).
    destruct (lookup_lt_is_Some_2 y i Hi) as [yi ->]. reflexivity.
  - rewrite (lookup_flat_map_uniform _ (length x))
      by ((intros; apply length_map) || lia).
    destruct (lookup_lt_is_Some_2 y i Hi) as [yi ->]. simpl.
    rewrite lookup_map.
    destruct (lookup_lt_is_Some_2 x j Hj) as [xj ->]. reflexivity.
Qed.

Lemma meshgrid_get2 (x y : list R) (i j : nat) :
  (i < length y)%nat -> (j < length x)%nat ->
  get2 (fst (meshgrid x y)) i j = x !! j
  /\ get2 (snd (meshgrid x y)) i j = y !! i.
Proof.
  intros Hi Hj. unfold get2. simpl shape. simpl fst. simpl snd.
  rewrite !bool_decide_eq_true_2 by assumption. simpl andb.
  apply meshgrid_lookup; assumption.
Qed.

(** ** The label stage *)

(** The raster the label stage builds from a resolved extent of four
    numbers: the grid samples are projected and each is sent to the index
    the nearest-neighbour query returns for it. *)
Lemma label_stage_eq (kd_query : list (R * R * R) -> R * R * R -> nat)
    (w : GeoDataFrame) (points : list (R * R)) (e : option (list R))
    (lat_n lon_n : nat) (a b c d : R) :
  points <> [] ->
  resolve_extent e w = [a; b; c; d] ->
  label_stage kd_query w points e lat_n lon_n
  = let lats := linspace (fst (lat_window c d)) (snd (lat_window c d)) lat_n in
    let lons := linspace (fst (lon_window a b)) (snd (lon_window a b)) lon_n in
    let lon_grid := fst (meshgrid lons lats) in
    let lat_grid := snd (meshgrid lons lats) in
    Ok (mk_labels w [a; b; c; d] lats lons lon_grid lat_grid
          (mk_ndarray2 (lat_n, lon_n)
             (map (kd_query (map project_point points))
                (map project_point (zip (flat lat_grid) (flat lon_grid)))))).
Proof.
  intros Hne Hres. unfold label_stage. rewrite Hres, build_grid_eq.
  cbv zeta.
  set (lats := linspace _ _ lat_n). set (lons := linspace _ _ lon_n).
  assert (Hlat : length lats = lat_n) by apply linspace_length.
  assert (Hlon : length lons = lon_n) by apply linspace_length.
  destruct (meshgrid_flat_length lons lats) as [Hf1 Hf2].
  unfold mbind at 1. unfold result_bind at 1. cbv beta iota.
  unfold ravel. rewrite geo_to_cartesian_rows by congruence.
  unfold mbind at 1. unfold result_bind at 1. cbv beta iota.
  destruct points as [|p points]; [congruence|].
  unfold columns. unfold mbind at 1. unfold result_bind at 1. cbv beta iota.
  rewrite geo_to_cartesian_rows by (rewrite !length_map; reflexivity).
  unfold mbind at 1. unfold result_bind at 1. cbv beta iota.
  change (zip (map fst (p :: points)) (map snd (p :: points)))
    with (zip ((p :: points).*1) ((p :: points).*2)).
  rewrite zip_fst_snd.
  unfold reshape.
  destruct (meshgrid_shape lons lats) as [-> _].
  rewrite !length_map, length_zip_with, Hf1, Hf2, Hlat, Hlon.
  simpl fst. simpl snd.

  rewrite Nat.min_id, Nat.eqb_refl. reflexivity.
Qed.

Lemma label_stage_no_points (kd_query : list (R * R * R) -> R * R * R -> nat)
    (w : GeoDataFrame) (e : option (list R)) (lat_n lon_n : nat) :
  label_stage kd_query w [] e lat_n lon_n = Raise IndexError.
Proof.
  destruct (length_four _ (resolve_extent_length e w)) as (a & b & c & d & Hres).
  unfold label_stage. rewrite Hres, build_grid_eq. cbv zeta.
  set (lats := linspace _ _ lat_n). set (lons := linspace _ _ lon_n).
  destruct (meshgrid_flat_length lons lats) as [Hf1 Hf2].
  unfold mbind at 1. unfold result_bind at 1. cbv beta iota.
  unfold ravel. rewrite geo_to_cartesian_rows by congruence.
  reflexivity.
Qed.

Lemma raster_lookup (kd_query : list (R * R * R) -> R * R * R -> nat)
    (sites : list (R * R * R)) (lats lons : list R) (i j : nat) (la lo : R) :
  lats !! i = Some la -> lons !! j = Some lo ->
  map (kd_query sites)
    (map project_point
       (zip (flat (snd (meshgrid lons lats))) (flat (fst (meshgrid lons lats)))))
    !! (i * length lons + j)%nat
  = Some (kd_query sites (project_point (la, lo))).
Proof.
  intros Hla Hlo.
  assert (Hi : (i < length lats)%nat) by (eapply lookup_lt_Some; eauto).
  assert (Hj : (j < length lons)%nat) by (eapply lookup_lt_Some; eauto).
  destruct (meshgrid_lookup lons lats i j Hi Hj) as [Hx Hy].
  rewrite !lookup_map, lookup_zip_with, Hy, Hx, Hla, Hlo. reflexivity.
Qed.

Lemma load_world_ok_labels
    (read_file : string -> option GeoDataFrame)
    (datasets_get_path : string -> option string)
    (kd_query : list (R * R * R) -> R * R * R -> nat)
    (points : list (R * R)) (geojson_path : string) (extent : option (list R))
    (point_colors : list string) (plugin_path : option string)
    (draw_plugin fill_ocean : bool) (lat_n lon_n : nat) (w : GeoDataFrame) :
  fst (load_world read_file datasets_get_path geojson_path) = Ok w ->
  fst (voronoi_labels read_file datasets_get_path kd_query points geojson_path
         extent point_colors plugin_path draw_plugin fill_ocean lat_n lon_n)
  = label_stage kd_query w points extent lat_n lon_n.
Proof.
  intros Hload. unfold voronoi_labels.
  destruct (load_world read_file datasets_get_path geojson_path) as [r reads].
  simpl in Hload. subst r. reflexivity.
Qed.

(** C1. When the reference dataset loads and there is at least one site, the
    label stage returns a raster of shape (lat_n, lon_n) whose entry at row
    [i], column [j] is the index of a site whose unit-sphere projection is at
    minimal Euclidean distance from the projection of the sample
    (lats[i], lons[j]) among all N projected sites; every entry is below N.
    The nearest-neighbour query is taken with its documented contract. *)
Theorem raster_entry_is_nearest_site
    (read_file : string -> option GeoDataFrame)
    (datasets_get_path : string -> option string)
    (kd_query : list (R * R * R) -> R * R * R -> nat)
    (points : list (R * R)) (geojson_path : string) (extent : option (list R))
    (point_colors : list string) (plugin_path : option string)
    (draw_plugin fill_ocean : bool) (lat_n lon_n : nat) (w : GeoDataFrame) :
  (forall sites q, sites <> [] -> nearest sites q (kd_query sites q)) ->
  fst (load_world read_file datasets_get_path geojson_path) = Ok w ->
  points <> [] ->
  exists l,
    fst (voronoi_labels read_file datasets_get_path kd_query points geojson_path
           extent point_colors plugin_path draw_plugin fill_ocean lat_n lon_n)
    = Ok l
    /\ shape (nearest_city l) = (lat_n, lon_n)
    /\ (forall i j, (i < lat_n)%nat -> (j < lon_n)%nat ->
          exists la lo k,
            lats l !! i = Some la /\ lons l !! j = Some lo
            /\ get2 (nearest_city l) i j = Some k
            /\ nearest (map project_point points) (project_point (la, lo)) k)
    /\ Forall (fun k => (k < length points)%nat) (flat (nearest_city l)).
Proof.
  intros Hkd Hload Hne.
  destruct (length_four _ (resolve_extent_length extent w))
    as (a & b & c & d & Hres).
  rewrite (load_world_ok_labels _ _ _ _ _ _ _ _ _ _ _ _ w Hload).
  rewrite (label_stage_eq kd_query w points extent lat_n lon_n a b c d Hne Hres).
  cbv zeta. eexists. split; [reflexivity|]. simpl.
  set (la_s := linspace _ _ lat_n). set (lo_s := linspace _ _ lon_n).
  assert (Hlat : length la_s = lat_n) by apply linspace_length.
  assert (Hlon : length lo_s = lon_n) by apply linspace_length.
  assert (Hsites : map project_point points <> []).
  { destruct points; [congruence | discriminate]. }
  split; [reflexivity|]. split.
  - intros i j Hi Hj.
    destruct (lookup_lt_is_Some_2 la_s i) as [la Hla]; [lia|].
    destruct (lookup_lt_is_Some_2 lo_s j) as [lo Hlo]; [lia|].
    exists la, lo, (kd_query (map project_point points) (project_point (la, lo))).
    repeat split; try assumption.
    + unfold get2. simpl shape. simpl fst. simpl snd.
      rewrite !bool_decide_eq_true_2 by assumption. simpl andb. cbv iota.
      simpl flat. rewrite <- Hlon.
      apply (raster_lookup kd_query _ la_s lo_s i j la lo Hla Hlo).
    + apply Hkd, Hsites.
  - apply Forall_lookup. intros n k Hk.
    rewrite lookup_map in Hk.
    destruct (_ !! n) as [q|] eqn:Hq; [|discriminate].
    simpl in Hk. injection Hk as <-.
    destruct (Hkd (map project_point points) q Hsites) as (s & Hs & _).
    apply lookup_lt_Some in Hs. rewrite length_map in Hs. exact Hs.
Qed.

(** ** The linear scan meets the contract of the nearest-neighbour query *)

Lemma argmin_from_spec (q : R * R * R) (rest : list (R * R * R)) :
  forall (pre : list (R * R * R)) (best : nat) (dbest : R) (sb : R * R * R),
    (pre ++ rest) !! best = Some sb ->
    dist3 q sb = dbest ->
    (forall m t, pre !! m = Some t -> dbest <= dist3 q t) ->
    nearest (pre ++ rest) q (argmin_from q rest (length pre) best dbest).
Proof.
  induction rest as [|s rest IH]; intros pre best dbest sb Hb Hd Hpre.
  - simpl. exists sb. split; [exact Hb|].
    intros m t Hm. rewrite app_nil_r in Hm. rewrite Hd. eauto.
  - simpl. replace (pre ++ s :: rest) with ((pre ++ [s]) ++ rest) in *
      by (rewrite <- app_assoc; reflexivity).
    replace (S (length pre)) with (length (pre ++ [s]))
      by (rewrite length_app; simpl; lia).
    assert (Hs : ((pre ++ [s]) ++ rest) !! length pre = Some s).
    { rewrite <- app_assoc. simpl. apply list_lookup_middle. reflexivity. }
    destruct (Rlt_dec (dist3 q s) dbest) as [Hlt|Hge].
    + apply (IH (pre ++ [s]) (length pre) (dist3 q s) s Hs eq_refl).
      intros m t Hm. apply lookup_app_Some in Hm as [Hm|[Hlen Hm]].
      * specialize (Hpre m t Hm). lra.
      * apply list_lookup_singleton_Some in Hm as [_ <-]. lra.
    + apply (IH (pre ++ [s]) best dbest sb Hb Hd).
      intros m t Hm. apply lookup_app_Some in Hm as [Hm|[Hlen Hm]].
      * exact (Hpre m t Hm).
      * apply list_lookup_singleton_Some in Hm as [_ <-]. lra.
Qed.

Lemma scan_query_nearest (sites : list (R * R * R)) (q : R * R * R) :
  sites <> [] -> nearest sites q (scan_query sites q).
Proof.
  destruct sites as [|s rest]; [congruence|]. intros _.
  apply (argmin_from_spec q rest [s] 0 (dist3 q s) s); [reflexivity..|].
  intros m t Hm. apply list_lookup_singleton_Some in Hm as [_ <-]. lra.
Qed.

Lemma raster_entry_is_nearest_site_witness :
  exists l,
    fst (voronoi_labels demo_read_file demo_get_path scan_query demo_points
           "../uploads/world.geojson" (Some [0; 10; 0; 10]) ["red"; "blue"]
           None false true 2 3)
    = Ok l
    /\ shape (nearest_city l) = (2, 3)%nat
    /\ (forall i j, (i < 2)%nat -> (j < 3)%nat ->
          exists la lo k,
            lats l !! i = Some la /\ lons l !! j = Some lo
            /\ get2 (nearest_city l) i j = Some k
            /\ nearest (map project_point demo_points) (project_point (la, lo)) k)
    /\ Forall (fun k => (k < length demo_points)%nat) (flat (nearest_city l)).
Proof.
  apply (raster_entry_is_nearest_site demo_read_file demo_get_path scan_query
           demo_points "../uploads/world.geojson" (Some [0; 10; 0; 10])
           ["red"; "blue"] None false true 2 3 (mk_frame (0, 0, 10, 10))).
  - exact scan_query_nearest.
  - reflexivity.
  - discriminate.
Defined.

(** ** The extent resolver *)

Lemma resolve_extent_auto (e : option (list R)) (w : GeoDataFrame) :
  (e = None \/ exists l, e = Some l /\ length l <> 4%nat) ->
  resolve_extent e w = auto_extent w.
Proof.
  intros [->|(l & -> & Hl)]; [reflexivity|].
  unfold resolve_extent.
  destruct (length l =? 0)%nat; [reflexivity|].
  apply Nat.eqb_neq in Hl. rewrite Hl. reflexivity.
Qed.

Lemma resolve_extent_verbatim (l : list R) (w : GeoDataFrame) :
  length l = 4%nat -> resolve_extent (Some l) w = l.
Proof.
  intros Hl. unfold resolve_extent. rewrite Hl. reflexivity.
Qed.

Lemma auto_extent_eq (w : GeoDataFrame) (min_lon min_lat max_lon max_lat : R) :
  total_bounds w = (min_lon, min_lat, max_lon, max_lat) ->
  auto_extent w
  = [ fst (clamp_window (-180) 180 (widen 0.05 (min_lon, max_lon)));
      snd (clamp_window (-180) 180 (widen 0.05 (min_lon, max_lon)));
      fst (clamp_window (-90) 90 (widen 0.05 (min_lat, max_lat)));
      snd (clamp_window (-90) 90 (widen 0.05 (min_lat, max_lat))) ].
Proof.
  intros Hb. unfold auto_extent. rewrite Hb.
  unfold clamp_window, widen. simpl.
  rewrite !py_max_Rmax, !py_min_Rmin.
  replace ((max_lon - min_lon) * 0.05) with (0.05 * (max_lon - min_lon)) by lra.
  replace ((max_lat - min_lat) * 0.05) with (0.05 * (max_lat - min_lat)) by lra.
  reflexivity.
Qed.

Lemma auto_extent_example :
  auto_extent (mk_frame (0, 0, 10, 10)) = [-0.5; 10.5; -0.5; 10.5].
Proof.
  rewrite (auto_extent_eq (mk_frame (0, 0, 10, 10)) 0 0 10 10 eq_refl).
  unfold clamp_window, widen, Rmax, Rmin. simpl.
  repeat match goal with
         | |- context [Rle_dec ?a ?b] => destruct (Rle_dec a b)
         end; repeat f_equal; lra.
Qed.

Lemma resolve_extent_entries_auto (extent : option (list entry))
    (w : GeoDataFrame) :
  (extent = None \/ exists l, extent = Some l /\ length l <> 4%nat) ->
  resolve_extent_entries extent w = map Num (auto_extent w).
Proof.
  intros [->|(l & -> & Hl)]; [reflexivity|].
  unfold resolve_extent_entries.
  destruct (length l =? 0)%nat; [reflexivity|].
  apply Nat.eqb_neq in Hl. rewrite Hl. reflexivity.
Qed.

(** On lists of numbers the two resolvers agree. *)
Lemma resolve_extent_entries_numbers (e : option (list R)) (w : GeoDataFrame) :
  resolve_extent_entries (option_map (map Num) e) w
  = map Num (resolve_extent e w).
Proof.
  destruct e as [l|]; [|reflexivity].
  unfold resolve_extent_entries, resolve_extent. cbn [option_map].
  rewrite length_map.
  destruct ((length l =? 0)%nat || negb (length l =? 4)%nat); reflexivity.
Qed.

Lemma clamp_into_lower (lo hi x y : R) :
  lo <= y -> x <= y -> y <= hi -> clamp_into lo hi x = Rmax lo x.
Proof.
  intros Hlo Hxy Hhi. unfold clamp_into. rewrite (Rmin_right hi x) by lra.
  reflexivity.
Qed.

Lemma clamp_into_upper (lo hi x y : R) :
  lo <= x -> x <= y -> x <= hi -> clamp_into lo hi y = Rmin hi y.
Proof.
  intros Hlo Hxy Hhi. unfold clamp_into. apply Rmax_right.
  unfold Rmin. destruct (Rle_dec hi y); lra.
Qed.

(** C3, as the code has it.  When the caller's extent is absent or is a
    list whose length is not 4 (whatever its entries), the resolved extent
    is the bounding box of the reference dataset widened on each side by 5%
    of its width (longitude) and of its height (latitude), its lower ends
    then raised to at least -180 and -90 and its upper ends lowered to at
    most 180 and 90.  When the bounding box is ordered and inside the legal
    ranges, that is the widened box clamped into longitude [-180, 180] and
    latitude [-90, 90].  For the bounds min_lon = 0, max_lon = 10,
    min_lat = 0, max_lat = 10 it is (-0.5, 10.5, -0.5, 10.5).  On lists of
    numbers it is the extent the label stage uses. *)
Theorem auto_extent_of_reference_box (extent : option (list entry))
    (w : GeoDataFrame) (min_lon min_lat max_lon max_lat : R) :
  (extent = None \/ exists l, extent = Some l /\ length l <> 4%nat) ->
  total_bounds w = (min_lon, min_lat, max_lon, max_lat) ->
  let lon := widen 0.05 (min_lon, max_lon) in
  let lat := widen 0.05 (min_lat, max_lat) in
  resolve_extent_entries extent w
  = map Num [ Rmax (-180) (fst lon); Rmin 180 (snd lon);
              Rmax (-90) (fst lat); Rmin 90 (snd lat) ]
  /\ (-180 <= min_lon -> min_lon <= max_lon -> max_lon <= 180 ->
      -90 <= min_lat -> min_lat <= max_lat -> max_lat <= 90 ->
      resolve_extent_entries extent w
      = map Num [ clamp_into (-180) 180 (fst lon);
                  clamp_into (-180) 180 (snd lon);
                  clamp_into (-90) 90 (fst lat);
                  clamp_into (-90) 90 (snd lat) ])
  /\ resolve_extent_entries extent (mk_frame (0, 0, 10, 10))
     = map Num [-0.5; 10.5; -0.5; 10.5]
  /\ (forall e, extent = option_map (map Num) e ->
        resolve_extent_entries extent w = map Num (resolve_extent e w)).
Proof.
  intros He Hb lon lat.
  assert (Hauto : resolve_extent_entries extent w
                  = map Num [ Rmax (-180) (fst lon); Rmin 180 (snd lon);
                              Rmax (-90) (fst lat); Rmin 90 (snd lat) ]).
  { rewrite (resolve_extent_entries_auto extent w He).
    rewrite (auto_extent_eq w _ _ _ _ Hb). reflexivity. }
  split; [exact Hauto|]. split; [|split].
  - intros H1 H2 H3 H4 H5 H6. rewrite Hauto.
    unfold lon, lat, widen. cbn [fst snd].
    rewrite (clamp_into_lower (-180) 180 _ min_lon) by lra.
    rewrite (clamp_into_upper (-180) 180 max_lon) by lra.
    rewrite (clamp_into_lower (-90) 90 _ min_lat) by lra.
    rewrite (clamp_into_upper (-90) 90 max_lat) by lra.
    reflexivity.
  - rewrite (resolve_extent_entries_auto extent _ He), auto_extent_example.
    reflexivity.
  - intros e ->. apply resolve_extent_entries_numbers.
Qed.

Lemma auto_extent_of_reference_box_witness :
  resolve_extent_entries (Some [Num 1; NotNum "null"; Num 3])
    (mk_frame (-10, 40, 30, 60))
  = map Num [ Rmax (-180) (fst (widen 0.05 (-10, 30)));
              Rmin 180 (snd (widen 0.05 (-10, 30)));
              Rmax (-90) (fst (widen 0.05 (40, 60)));
              Rmin 90 (snd (widen 0.05 (40, 60))) ]
  /\ resolve_extent_entries (Some [Num 1; NotNum "null"; Num 3])
       (mk_frame (-10, 40, 30, 60))
     = map Num [ clamp_into (-180) 180 (fst (widen 0.05 (-10, 30)));
                 clamp_into (-180) 180 (snd (widen 0.05 (-10, 30)));
                 clamp_into (-90) 90 (fst (widen 0.05 (40, 60)));
                 clamp_into (-90) 90 (snd (widen 0.05 (40, 60))) ]
  /\ resolve_extent_entries (Some [Num 1; NotNum "null"; Num 3])
       (mk_frame (0, 0, 10, 10))
     = map Num [-0.5; 10.5; -0.5; 10.5].
Proof.
  assert (Hcond : Some [Num 1; NotNum "null"; Num 3] = None
                  \/ exists l, Some [Num 1; NotNum "null"; Num 3] = Some l
                               /\ length l <> 4%nat).
  { right. eexists. split; [reflexivity | simpl; lia]. }
  pose proof (auto_extent_of_reference_box
                (Some [Num 1; NotNum "null"; Num 3])
                (mk_frame (-10, 40, 30, 60)) (-10) 40 30 60 Hcond eq_refl)
    as H.
  cbv zeta in H. destruct H as (H1 & H2 & H3 & _).
  split; [exact H1|]. split; [apply H2; lra | exact H3].
Defined.

(** C3 as stated fails twice.  For the reference bounds min_lon = 200,
    max_lon = 300, min_lat = 0, max_lat = 10 the derived extent is
    (195, 180, -0.5, 10.5): its first longitude is not in [-180, 180].  And
    a caller extent of four entries that are not four numbers is not
    replaced by the derived one: it is passed on as it is. *)
Lemma auto_extent_escapes_legal_range :
  resolve_extent None (mk_frame (200, 0, 300, 10)) = [195; 180; -0.5; 10.5]
  /\ ~ legal_lon 195
  /\ resolve_extent_entries (Some [Num 1; Num 2; Num 3; NotNum "null"])
       (mk_frame (0, 0, 10, 10))
     = [Num 1; Num 2; Num 3; NotNum "null"]
  /\ resolve_extent_entries (Some [Num 1; Num 2; Num 3; NotNum "null"])
       (mk_frame (0, 0, 10, 10))
     <> map Num [-0.5; 10.5; -0.5; 10.5].
Proof.
  split; [|split; [|split]].
  - unfold resolve_extent.
    rewrite (auto_extent_eq (mk_frame (200, 0, 300, 10)) 200 0 300 10 eq_refl).
    unfold clamp_window, widen, Rmax, Rmin. simpl.
    repeat match goal with
           | |- context [Rle_dec ?a ?b] => destruct (Rle_dec a b)
           end; repeat f_equal; lra.
  - unfold legal_lon. lra.
  - reflexivity.
  - discriminate.
Qed.

(** ** The grid builder *)

Lemma sample_first (w : R * R) (n : nat) : sample w n 0 = fst w.
Proof. unfold sample. simpl INR. lra. Qed.

Lemma sample_last (w : R * R) (n : nat) :
  (2 <= n)%nat -> sample w n (n - 1) = snd w.
Proof.
  intros Hn. unfold sample.
  assert (INR (n - 1) <> 0) by (apply not_0_INR; lia).
  field. assumption.
Qed.

Lemma sample_step (w : R * R) (n i : nat) :
  sample w n (S i) - sample w n i = (snd w - fst w) / INR (n - 1).
Proof. unfold sample. rewrite S_INR. lra. Qed.

(** Everything lines 70-89 produce from a resolved extent of four numbers:
    the samples, the two grids, and a raster whose buffer has
    lat_n * lon_n entries, the one at (i, j) being the query's answer for
    the projection of (lats[i], lons[j]). *)
Lemma label_stage_full (kd_query : list (R * R * R) -> R * R * R -> nat)
    (w : GeoDataFrame) (points : list (R * R)) (e : option (list R))
    (lat_n lon_n : nat) (a b c d : R) :
  points <> [] ->
  resolve_extent e w = [a; b; c; d] ->
  exists l,
    label_stage kd_query w points e lat_n lon_n = Ok l
    /\ world l = w /\ extent_used l = [a; b; c; d]
    /\ lats l = linspace (fst (lat_window c d)) (snd (lat_window c d)) lat_n
    /\ lons l = linspace (fst (lon_window a b)) (snd (lon_window a b)) lon_n
    /\ lon_grid l = fst (meshgrid (lons l) (lats l))
    /\ lat_grid l = snd (meshgrid (lons l) (lats l))
    /\ shape (nearest_city l) = (lat_n, lon_n)
    /\ length (flat (nearest_city l)) = (lat_n * lon_n)%nat
    /\ (forall i j, (i < lat_n)%nat -> (j < lon_n)%nat ->
          exists la lo,
            lats l !! i = Some la /\ lons l !! j = Some lo
            /\ get2 (nearest_city l) i j
               = Some (kd_query (map project_point points)
                         (project_point (la, lo)))).
Proof.
  intros Hne Hres.
  rewrite (label_stage_eq kd_query w points e lat_n lon_n a b c d Hne Hres).
  cbv zeta. eexists. split; [reflexivity|].
  cbn [world extent_used lats lons lon_grid lat_grid nearest_city].
  set (la_s := linspace _ _ lat_n). set (lo_s := linspace _ _ lon_n).
  assert (Hlat : length la_s = lat_n) by apply linspace_length.
  assert (Hlon : length lo_s = lon_n) by apply linspace_length.
  destruct (meshgrid_flat_length lo_s la_s) as [Hf1 Hf2].
  do 7 (split; [reflexivity|]). split.
  - cbn [flat]. rewrite !length_map, length_zip_with, Hf1, Hf2, Hlat, Hlon. lia.
  - intros i j Hi Hj.
    destruct (lookup_lt_is_Some_2 la_s i) as [la Hla]; [lia|].
    destruct (lookup_lt_is_Some_2 lo_s j) as [lo Hlo]; [lia|].
    exists la, lo. split; [exact Hla|]. split; [exact Hlo|].
    unfold get2. cbn [flat shape fst snd].
    rewrite !bool_decide_eq_true_2 by assumption. cbn [andb].
    rewrite <- Hlon.
    apply (raster_lookup kd_query _ la_s lo_s i j la lo Hla Hlo).
Qed.

Lemma lat_window_legal_extent (c d : R) :
  legal_lat c -> c <= d -> legal_lat d ->
  lat_window c d
  = (clamp_into (-90) 90 (c - 0.1 * (d - c)),
     clamp_into (-90) 90 (d + 0.1 * (d - c))).
Proof.
  intros [Hc _] Hcd [_ Hd]. unfold lat_window, clamp_window, widen.
  cbn [fst snd].
  rewrite (clamp_into_lower (-90) 90 _ c) by lra.
  rewrite (clamp_into_upper (-90) 90 d) by lra. reflexivity.
Qed.

Lemma lon_window_legal_extent (a b : R) :
  legal_lon a -> a <= b -> legal_lon b ->
  lon_window a b
  = (clamp_into (-180) 180 (a - 0.1 * (b - a)),
     clamp_into (-180) 180 (b + 0.1 * (b - a))).
Proof.
  intros [Ha _] Hab [_ Hb]. unfold lon_window, clamp_window, widen.
  cbn [fst snd].
  rewrite (clamp_into_lower (-180) 180 _ a) by lra.
  rewrite (clamp_into_upper (-180) 180 b) by lra. reflexivity.
Qed.

(** C4, as the code has it.  For every resolved extent (a, b, c, d) and
    every resolution (lat_n, lon_n), the grid builder widens the extent by
    10% of its width and height on each side, raises the lower end of the
    widened window to at least -180 (longitude) and -90 (latitude) and
    lowers its upper end to at most 180 and 90; for an ordered extent
    inside the legal ranges that is the widened window clamped into the
    legal bounds.  It returns exactly lat_n latitudes and lon_n longitudes,
    evenly spaced from the first end of that window to the other.  The two
    meshgrid arrays and the label raster have shape (lat_n, lon_n) and
    lat_n * lon_n entries: lon_grid[i, j] = lons[j], lat_grid[i, j] =
    lats[i], and the raster entry at (i, j) is the nearest-neighbour
    query's answer for the projection of (lats[i], lons[j]). *)
Theorem grid_builder_window_and_raster
    (kd_query : list (R * R * R) -> R * R * R -> nat)
    (w : GeoDataFrame) (points : list (R * R)) (e : option (list R))
    (lat_n lon_n : nat) (a b c d : R) :
  points <> [] ->
  resolve_extent e w = [a; b; c; d] ->
  exists l,
    label_stage kd_query w points e lat_n lon_n = Ok l
    /\ build_grid [a; b; c; d] lat_n lon_n
       = Ok (lats l, lons l, lon_grid l, lat_grid l)
    /\ lat_window c d
       = (Rmax (-90) (c - 0.1 * (d - c)), Rmin 90 (d + 0.1 * (d - c)))
    /\ lon_window a b
       = (Rmax (-180) (a - 0.1 * (b - a)), Rmin 180 (b + 0.1 * (b - a)))
    /\ (legal_lat c -> c <= d -> legal_lat d ->
        lat_window c d
        = (clamp_into (-90) 90 (c - 0.1 * (d - c)),
           clamp_into (-90) 90 (d + 0.1 * (d - c))))
    /\ (legal_lon a -> a <= b -> legal_lon b ->
        lon_window a b
        = (clamp_into (-180) 180 (a - 0.1 * (b - a)),
           clamp_into (-180) 180 (b + 0.1 * (b - a))))
    /\ length (lats l) = lat_n /\ length (lons l) = lon_n
    /\ (forall i, (i < lat_n)%nat ->
          lats l !! i = Some (sample (lat_window c d) lat_n i))
    /\ (forall j, (j < lon_n)%nat ->
          lons l !! j = Some (sample (lon_window a b) lon_n j))
    /\ ((2 <= lat_n)%nat ->
          lats l !! O = Some (fst (lat_window c d))
          /\ lats l !! (lat_n - 1)%nat = Some (snd (lat_window c d)))
    /\ ((2 <= lon_n)%nat ->
          lons l !! O = Some (fst (lon_window a b))
          /\ lons l !! (lon_n - 1)%nat = Some (snd (lon_window a b)))
    /\ shape (lon_grid l) = (lat_n, lon_n)
    /\ shape (lat_grid l) = (lat_n, lon_n)
    /\ shape (nearest_city l) = (lat_n, lon_n)
    /\ length (flat (lon_grid l)) = (lat_n * lon_n)%nat
    /\ length (flat (lat_grid l)) = (lat_n * lon_n)%nat
    /\ length (flat (nearest_city l)) = (lat_n * lon_n)%nat
    /\ (forall i j, (i < lat_n)%nat -> (j < lon_n)%nat ->
          get2 (lon_grid l) i j = lons l !! j
          /\ get2 (lat_grid l) i j = lats l !! i
          /\ exists la lo,
               lats l !! i = Some la /\ lons l !! j = Some lo
               /\ get2 (nearest_city l) i j
                  = Some (kd_query (map project_point points)
                            (project_point (la, lo)))).
Proof.
  intros Hne Hres.
  destruct (label_stage_full kd_query w points e lat_n lon_n a b c d Hne Hres)
    as (l & Hl & _ & _ & Hlats & Hlons & Hlg & Hag & Hshape & Hlen & Hent).
  exists l. split; [exact Hl|].
  assert (Hlat : length (lats l) = lat_n)
    by (rewrite Hlats; apply linspace_length).
  assert (Hlon : length (lons l) = lon_n)
    by (rewrite Hlons; apply linspace_length).
  destruct (meshgrid_shape (lons l) (lats l)) as [Hs1 Hs2].
  destruct (meshgrid_flat_length (lons l) (lats l)) as [Hf1 Hf2].
  split.
  { rewrite build_grid_eq. cbv zeta. rewrite Hlg, Hag, Hlats, Hlons.
    reflexivity. }
  split; [reflexivity|]. split; [reflexivity|].
  split; [apply lat_window_legal_extent|].
  split; [apply lon_window_legal_extent|].
  split; [exact Hlat|]. split; [exact Hlon|].
  split; [intros i Hi; rewrite Hlats; apply linspace_lookup, Hi|].
  split; [intros j Hj; rewrite Hlons; apply linspace_lookup, Hj|].
  split.
  { intros Hn. rewrite Hlats, !linspace_lookup by lia.
    rewrite sample_first, sample_last by lia. split; reflexivity. }
  split.
  { intros Hn. rewrite Hlons, !linspace_lookup by lia.
    rewrite sample_first, sample_last by lia. split; reflexivity. }
  split; [rewrite Hlg, Hs1; congruence|].
  split; [rewrite Hag, Hs2; congruence|].
  split; [exact Hshape|].
  split; [rewrite Hlg, Hf1; congruence|].
  split; [rewrite Hag, Hf2; congruence|].
  split; [exact Hlen|].
  intros i j Hi Hj.
  destruct (meshgrid_get2 (lons l) (lats l) i j) as [Hg1 Hg2]; [lia..|].
  rewrite Hlg, Hag. split; [exact Hg1|]. split; [exact Hg2|].
  apply Hent; assumption.
Qed.

Lemma grid_builder_window_and_raster_witness :
  exists l,
    label_stage scan_query (mk_frame (0, 0, 10, 10)) demo_points
      (Some [0; 10; 0; 10]) 2 3 = Ok l
    /\ build_grid [0; 10; 0; 10] 2 3
       = Ok (lats l, lons l, lon_grid l, lat_grid l)
    /\ lat_window 0 10
       = (clamp_into (-90) 90 (0 - 0.1 * (10 - 0)),
          clamp_into (-90) 90 (10 + 0.1 * (10 - 0)))
    /\ lon_window 0 10
       = (clamp_into (-180) 180 (0 - 0.1 * (10 - 0)),
          clamp_into (-180) 180 (10 + 0.1 * (10 - 0)))
    /\ length (lats l) = 2%nat /\ length (lons l) = 3%nat
    /\ lats l !! O = Some (fst (lat_window 0 10))
    /\ lats l !! 1%nat = Some (snd (lat_window 0 10))
    /\ lons l !! O = Some (fst (lon_window 0 10))
    /\ lons l !! 2%nat = Some (snd (lon_window 0 10))
    /\ shape (nearest_city l) = (2, 3)%nat
    /\ length (flat (nearest_city l)) = (2 * 3)%nat.
Proof.
  destruct (grid_builder_window_and_raster scan_query (mk_frame (0, 0, 10, 10))
              demo_points (Some [0; 10; 0; 10]) 2 3 0 10 0 10)
    as (l & H1 & H2 & _ & _ & H5 & H6 & H7 & H8 & _ & _ & H11 & H12 & _ & _
        & H15 & _ & _ & H18 & _).
  - discriminate.
  - reflexivity.
  - exists l.
    assert (Hlat : legal_lat 0 /\ 0 <= 10 /\ legal_lat 10)
      by (unfold legal_lat; lra).
    assert (Hlon : legal_lon 0 /\ 0 <= 10 /\ legal_lon 10)
      by (unfold legal_lon; lra).
    destruct Hlat as (A1 & A2 & A3), Hlon as (B1 & B2 & B3).
    destruct (H11 ltac:(lia)) as [H11a H11b].
    destruct (H12 ltac:(lia)) as [H12a H12b].
    repeat split; auto.
Defined.

Lemma demo_labels (kd_query : list (R * R * R) -> R * R * R -> nat)
    (points : list (R * R)) (extent : option (list R))
    (point_colors : list string) (plugin_path : option string)
    (draw_plugin fill_ocean : bool) (lat_n lon_n : nat) :
  fst (voronoi_labels demo_read_file demo_get_path kd_query points
         "../uploads/world.geojson" extent point_colors plugin_path
         draw_plugin fill_ocean lat_n lon_n)
  = label_stage kd_query (mk_frame (0, 0, 10, 10)) points extent lat_n lon_n.
Proof. apply load_world_ok_labels. reflexivity. Qed.

(** C4 as stated fails: for the extent (-300, -200, 0, 10) the widened
    window is not brought inside the legal bounds; the last of the three
    grid longitudes is -190. *)
Lemma padded_window_not_clamped_into_range :
  exists l,
    fst (voronoi_labels demo_read_file demo_get_path scan_query demo_points
           "../uploads/world.geojson" (Some [-300; -200; 0; 10])
           ["red"; "blue"] None false true 2 3)
    = Ok l
    /\ lons l !! 2%nat = Some (-190)
    /\ ~ legal_lon (-190).
Proof.
  rewrite demo_labels.
  rewrite (label_stage_eq scan_query _ demo_points (Some [-300; -200; 0; 10])
             2 3 (-300) (-200) 0 10) by (discriminate || reflexivity).
  cbv zeta. eexists. split; [reflexivity|]. cbn [lons].
  split.
  - rewrite linspace_lookup by lia.
    change 2%nat with (3 - 1)%nat at 2. rewrite sample_last by lia.
    unfold lon_window, clamp_window, widen. simpl.
    rewrite Rmin_right by lra. f_equal. lra.
  - unfold legal_lon. lra.
Qed.

(** ** Degenerate and out-of-range extents *)

Lemma linspace_Forall (P : R -> Prop) (start stop : R) (n : nat) :
  (forall i, (i < n)%nat -> P (sample (start, stop) n i)) ->
  Forall P (linspace start stop n).
Proof.
  intros H. apply Forall_lookup. intros i x Hx.
  assert (Hi : (i < n)%nat).
  { apply lookup_lt_Some in Hx. rewrite linspace_length in Hx. exact Hx. }
  rewrite linspace_lookup in Hx by exact Hi. injection Hx as <-. auto.
Qed.

Lemma linspace_degenerate (x : R) (n : nat) :
  Forall (fun y => y = x) (linspace x x n).
Proof.
  apply linspace_Forall. intros i _. unfold sample. simpl fst. simpl snd.
  unfold Rdiv. rewrite Rminus_diag, Rmult_0_l, Rmult_0_r. lra.
Qed.

Lemma zero_width_window (lo hi x : R) :
  lo <= x <= hi -> clamp_window lo hi (widen 0.1 (x, x)) = (x, x).
Proof.
  intros Hx. unfold clamp_window, widen. simpl.
  rewrite Rmax_right by lra. rewrite Rmin_right by lra. f_equal; lra.
Qed.

(** C5, as the code has it.  An extent of zero width or zero height is
    not rejected.  Whenever the reference dataset loads and there is at
    least one site, lines 41-89 raise nothing for it: they return lat_n
    latitudes, lon_n longitudes and a label raster of shape (lat_n, lon_n)
    with lat_n * lon_n entries, the one at (i, j) being the
    nearest-neighbour query's answer for the projection of
    (lats[i], lons[j]); the drawing stage is then entered with that grid and
    raster, and the outcome of [generate_voronoi_map] is the outcome of the
    drawing stage.  With zero width at a legal longitude every grid
    longitude equals it, and with zero height at a legal latitude every
    grid latitude equals it. *)
Theorem degenerate_extent_builds_grid
    (read_file : string -> option GeoDataFrame)
    (datasets_get_path : string -> option string)
    (kd_query : list (R * R * R) -> R * R * R -> nat)
    (png : Type) (render : RenderInput -> result png)
    (points : list (R * R)) (geojson_path : string) (extent : option (list R))
    (point_colors : list string) (plugin_path : option string)
    (draw_plugin fill_ocean : bool) (lat_n lon_n : nat)
    (w : GeoDataFrame) (a b c d : R) :
  fst (load_world read_file datasets_get_path geojson_path) = Ok w ->
  points <> [] ->
  resolve_extent extent w = [a; b; c; d] ->
  a = b \/ c = d ->
  exists l,
    fst (voronoi_labels read_file datasets_get_path kd_query points
           geojson_path extent point_colors plugin_path draw_plugin fill_ocean
           lat_n lon_n)
    = Ok l
    /\ fst (generate_voronoi_map read_file datasets_get_path kd_query png
              render points geojson_path extent point_colors plugin_path
              draw_plugin fill_ocean lat_n lon_n)
       = render (mk_render_input (lon_grid l) (lat_grid l) (nearest_city l)
                   points (take (length points) point_colors) (world l)
                   (if draw_plugin then plugin_path else None)
                   fill_ocean (extent_used l))
    /\ extent_used l = [a; b; c; d]
    /\ length (lats l) = lat_n /\ length (lons l) = lon_n
    /\ shape (nearest_city l) = (lat_n, lon_n)
    /\ length (flat (nearest_city l)) = (lat_n * lon_n)%nat
    /\ (forall i j, (i < lat_n)%nat -> (j < lon_n)%nat ->
          exists la lo,
            lats l !! i = Some la /\ lons l !! j = Some lo
            /\ get2 (nearest_city l) i j
               = Some (kd_query (map project_point points)
                         (project_point (la, lo))))
    /\ (a = b -> legal_lon a -> Forall (fun x => x = a) (lons l))
    /\ (c = d -> legal_lat c -> Forall (fun x => x = c) (lats l)).
Proof.
  intros Hload Hne Hres _.
  destruct (label_stage_full kd_query w points extent lat_n lon_n a b c d
              Hne Hres)
    as (l & Hl & _ & Hext & Hlats & Hlons & _ & _ & Hshape & Hlen & Hent).
  pose proof (load_world_ok_labels read_file datasets_get_path kd_query points
                geojson_path extent point_colors plugin_path draw_plugin
                fill_ocean lat_n lon_n w Hload) as Hlab.
  rewrite Hl in Hlab.
  exists l. split; [exact Hlab|]. split.
  { unfold generate_voronoi_map.
    destruct (voronoi_labels _ _ _ _ _ _ _ _ _ _ _ _) as [labels reads].
    cbn [fst] in *. subst labels. reflexivity. }
  split; [exact Hext|].
  split; [rewrite Hlats; apply linspace_length|].
  split; [rewrite Hlons; apply linspace_length|].
  split; [exact Hshape|]. split; [exact Hlen|]. split; [exact Hent|].
  split.
  - intros <- Ha. rewrite Hlons. unfold lon_window.
    rewrite zero_width_window by exact Ha. apply linspace_degenerate.
  - intros <- Hc. rewrite Hlats. unfold lat_window.
    rewrite zero_width_window by exact Hc. apply linspace_degenerate.
Qed.

Lemma degenerate_extent_builds_grid_witness :
  exists l,
    fst (voronoi_labels demo_read_file demo_get_path scan_query demo_points
           "../uploads/world.geojson" (Some [5; 5; 0; 10]) ["red"; "blue"]
           None false true 2 3)
    = Ok l
    /\ fst (generate_voronoi_map demo_read_file demo_get_path scan_query
              (ndarray2 nat) demo_render demo_points
              "../uploads/world.geojson" (Some [5; 5; 0; 10]) ["red"; "blue"]
              None false true 2 3)
       = demo_render
           (mk_render_input (lon_grid l) (lat_grid l) (nearest_city l)
              demo_points (take (length demo_points) ["red"; "blue"])
              (world l) None true (extent_used l))
    /\ extent_used l = [5; 5; 0; 10]
    /\ length (lats l) = 2%nat /\ length (lons l) = 3%nat
    /\ shape (nearest_city l) = (2, 3)%nat
    /\ length (flat (nearest_city l)) = (2 * 3)%nat
    /\ (forall i j, (i < 2)%nat -> (j < 3)%nat ->
          exists la lo,
            lats l !! i = Some la /\ lons l !! j = Some lo
            /\ get2 (nearest_city l) i j
               = Some (scan_query (map project_point demo_points)
                         (project_point (la, lo))))
    /\ (5 = 5 -> legal_lon 5 -> Forall (fun x => x = 5) (lons l))
    /\ (0 = 10 -> legal_lat 0 -> Forall (fun x => x = 0) (lats l)).
Proof.
  apply (degenerate_extent_builds_grid demo_read_file demo_get_path scan_query
           (ndarray2 nat) demo_render demo_points "../uploads/world.geojson"
           (Some [5; 5; 0; 10]) ["red"; "blue"] None false true 2 3
           (mk_frame (0, 0, 10, 10)) 5 5 0 10).
  - reflexivity.
  - discriminate.
  - reflexivity.
  - left. reflexivity.
Defined.

(** C5 as stated fails: the extent (5, 5, 0, 10) has zero width, and the
    run raises no error; it returns a grid of three longitudes, all 5, and a
    raster of shape (2, 3). *)
Lemma zero_width_extent_not_rejected :
  exists l,
    fst (voronoi_labels demo_read_file demo_get_path scan_query demo_points
           "../uploads/world.geojson" (Some [5; 5; 0; 10]) ["red"; "blue"]
           None false true 2 3)
    = Ok l
    /\ length (lons l) = 3%nat
    /\ Forall (fun x => x = 5) (lons l)
    /\ shape (nearest_city l) = (2, 3)%nat.
Proof.
  rewrite demo_labels.
  rewrite (label_stage_eq scan_query _ demo_points (Some [5; 5; 0; 10]) 2 3
             5 5 0 10) by (discriminate || reflexivity).
  cbv zeta. eexists. split; [reflexivity|].
  cbn [lons nearest_city shape].
  split; [apply linspace_length|]. split; [|reflexivity].
  unfold lon_window. rewrite zero_width_window by lra.
  apply linspace_degenerate.
Qed.

Lemma legal_window_lat (c d : R) :
  fst (widen 0.1 (c, d)) <= 90 -> -90 <= snd (widen 0.1 (c, d)) ->
  legal_lat (fst (lat_window c d)) /\ legal_lat (snd (lat_window c d)).
Proof.
  unfold lat_window, clamp_window, legal_lat. simpl fst. simpl snd.
  intros H1 H2. unfold Rmax, Rmin.
  repeat match goal with
         | |- context [Rle_dec ?x ?y] => destruct (Rle_dec x y)
         end; lra.
Qed.

Lemma legal_window_lon (a b : R) :
  fst (widen 0.1 (a, b)) <= 180 -> -180 <= snd (widen 0.1 (a, b)) ->
  legal_lon (fst (lon_window a b)) /\ legal_lon (snd (lon_window a b)).
Proof.
  unfold lon_window, clamp_window, legal_lon. simpl fst. simpl snd.
  intros H1 H2. unfold Rmax, Rmin.
  repeat match goal with
         | |- context [Rle_dec ?x ?y] => destruct (Rle_dec x y)
         end; lra.
Qed.

(** An ordered extent inside the legal ranges meets the conditions of the
    next theorem. *)
Lemma ordered_legal_extent (lo hi x y : R) :
  lo <= x -> x <= y -> y <= hi ->
  fst (widen 0.1 (x, y)) <= hi /\ lo <= snd (widen 0.1 (x, y)).
Proof. unfold widen. simpl. intros. split; lra. Qed.

(** C10, as the code has it.  The lower end of the widened window is only
    raised to the lower legal bound and its upper end only lowered to the
    upper legal bound.  Whenever the widened lower ends do not exceed the
    upper legal bounds and the widened upper ends are not below the lower
    legal bounds (every ordered extent inside the legal ranges is such),
    every grid latitude lies in [-90, 90] and every grid longitude in
    [-180, 180]; the statement is about the resolved extent, whether it was
    supplied by the caller or derived from the reference dataset. *)
Theorem grid_within_legal_bounds
    (kd_query : list (R * R * R) -> R * R * R -> nat)
    (w : GeoDataFrame) (points : list (R * R)) (e : option (list R))
    (lat_n lon_n : nat) (a b c d : R) :
  points <> [] ->
  resolve_extent e w = [a; b; c; d] ->
  fst (widen 0.1 (a, b)) <= 180 -> -180 <= snd (widen 0.1 (a, b)) ->
  fst (widen 0.1 (c, d)) <= 90 -> -90 <= snd (widen 0.1 (c, d)) ->
  exists l,
    label_stage kd_query w points e lat_n lon_n = Ok l
    /\ Forall legal_lat (lats l)
    /\ Forall legal_lon (lons l).
Proof.
  intros Hne Hres Ha Hb Hc Hd.
  rewrite (label_stage_eq kd_query w points e lat_n lon_n a b c d Hne Hres).
  cbv zeta. eexists. split; [reflexivity|]. cbn [lats lons].
  destruct (legal_window_lat c d Hc Hd) as [Hl1 Hl2].
  destruct (legal_window_lon a b Ha Hb) as [Hl3 Hl4].
  split; apply linspace_Forall; intros i Hi.
  - apply (sample_between (-90) 90 _ lat_n i Hi); assumption.
  - apply (sample_between (-180) 180 _ lon_n i Hi); assumption.
Qed.

Lemma grid_within_legal_bounds_witness :
  exists l,
    label_stage scan_query (mk_frame (0, 0, 10, 10)) demo_points
      (Some [170; 180; 80; 90]) 2 3 = Ok l
    /\ Forall legal_lat (lats l)
    /\ Forall legal_lon (lons l).
Proof.
  apply (grid_within_legal_bounds scan_query (mk_frame (0, 0, 10, 10))
           demo_points (Some [170; 180; 80; 90]) 2 3 170 180 80 90).
  - discriminate.
  - reflexivity.
  - unfold widen; simpl; lra.
  - unfold widen; simpl; lra.
  - unfold widen; simpl; lra.
  - unfold widen; simpl; lra.
Defined.

(** C10 as stated fails: for the caller-supplied extent (200, 300, 0, 10)
    the first grid longitude is 190, outside [-180, 180]. *)
Lemma out_of_range_extent_escapes_clamp :
  exists l,
    fst (voronoi_labels demo_read_file demo_get_path scan_query demo_points
           "../uploads/world.geojson" (Some [200; 300; 0; 10]) ["red"; "blue"]
           None false true 2 3)
    = Ok l
    /\ lons l !! O = Some 190
    /\ ~ legal_lon 190.
Proof.
  rewrite demo_labels.
  rewrite (label_stage_eq scan_query _ demo_points (Some [200; 300; 0; 10]) 2 3
             200 300 0 10) by (discriminate || reflexivity).
  cbv zeta. eexists. split; [reflexivity|]. cbn [lons].
  split.
  - rewrite linspace_lookup by lia. rewrite sample_first.
    unfold lon_window, clamp_window, widen. simpl.
    rewrite Rmax_right by lra. f_equal. lra.
  - unfold legal_lon. lra.
Qed.

(** ** The request handler *)

Lemma resolution_size_default (r : string) :
  r <> "low" -> r <> "medium" -> r <> "high" ->
  resolution_size r = (1200, 2400)%nat.
Proof.
  intros Hl Hm Hh. unfold resolution_size, RESOLUTION_MAP.
  rewrite !lookup_insert_ne by congruence.
  rewrite lookup_singleton_ne by congruence. reflexivity.
Qed.

Lemma resolution_size_medium : resolution_size "medium" = (1200, 2400)%nat.
Proof.
  unfold resolution_size, RESOLUTION_MAP.
  rewrite lookup_insert_ne by discriminate.
  rewrite lookup_insert_eq. reflexivity.
Qed.

Lemma api_resolution_size
    (read_file : string -> option GeoDataFrame)
    (datasets_get_path : string -> option string)
    (kd_query : list (R * R * R) -> R * R * R -> nat)
    (png : Type) (render : RenderInput -> result png) (f : Form) (r1 r2 : string) :
  resolution_size r1 = resolution_size r2 ->
  api_generate_map read_file datasets_get_path kd_query png render
    (with_resolution f r1)
  = api_generate_map read_file datasets_get_path kd_query png render
      (with_resolution f r2).
Proof.
  intros H. unfold api_generate_map, with_resolution.
  cbn [decoded draw_plugin fill_ocean resolution file plugin_file].
  rewrite H. reflexivity.
Qed.

(** C6, as the code has it.  A resolution value outside low, medium and
    high raises no error: the lookup falls back to the medium grid size
    (1200, 2400), and the request is answered exactly as the same request
    with resolution medium. *)
Theorem unknown_resolution_defaults_to_medium
    (read_file : string -> option GeoDataFrame)
    (datasets_get_path : string -> option string)
    (kd_query : list (R * R * R) -> R * R * R -> nat)
    (png : Type) (render : RenderInput -> result png) (f : Form) (r : string) :
  r <> "low" -> r <> "medium" -> r <> "high" ->
  resolution_size r = (1200, 2400)%nat
  /\ api_generate_map read_file datasets_get_path kd_query png render
       (with_resolution f r)
     = api_generate_map read_file datasets_get_path kd_query png render
         (with_resolution f "medium").
Proof.
  intros Hl Hm Hh. split; [apply resolution_size_default; assumption|].
  apply api_resolution_size.
  rewrite resolution_size_medium. apply resolution_size_default; assumption.
Qed.

Lemma unknown_resolution_defaults_to_medium_witness :
  resolution_size "ultra" = (1200, 2400)%nat
  /\ api_generate_map demo_read_file demo_get_path scan_query (ndarray2 nat)
       demo_render (with_resolution (demo_form "low") "ultra")
     = api_generate_map demo_read_file demo_get_path scan_query (ndarray2 nat)
         demo_render (with_resolution (demo_form "low") "medium").
Proof.
  apply (unknown_resolution_defaults_to_medium demo_read_file demo_get_path
           scan_query (ndarray2 nat) demo_render (demo_form "low") "ultra");
    discriminate.
Defined.

(** A form that passes the handler's checks is answered from the outcome of
    the label stage and the drawing stage. *)
Lemma api_valid_form
    (read_file : string -> option GeoDataFrame)
    (datasets_get_path : string -> option string)
    (kd_query : list (R * R * R) -> R * R * R -> nat)
    (png : Type) (render : RenderInput -> result png) (f : Form)
    (pts : list (R * R)) (e : option (list R)) (cols : list string)
    (w : GeoDataFrame) (lat_n lon_n : nat) :
  decoded f = Some (pts, e, cols) ->
  (2 <= length pts <= 30)%nat ->
  length cols = length pts ->
  fst (load_world read_file datasets_get_path (path_join UPLOAD_DIR (file f)))
  = Ok w ->
  resolution_size (resolution f) = (lat_n, lon_n) ->
  api_generate_map read_file datasets_get_path kd_query png render f
  = match
      l ← label_stage kd_query w pts e lat_n lon_n;
      render (mk_render_input (lon_grid l) (lat_grid l) (nearest_city l) pts
                (take (length pts) cols) (world l)
                (if draw_plugin f
                 then (fun name => path_join UPLOAD_DIR ("plugin_" +:+ name))
                        <$> plugin_file f
                 else None)
                (fill_ocean f) (extent_used l))
    with
    | Ok img_buf => StreamingResponse img_buf
    | Raise x => HTTPException 500 (exn_str x)
    end.
Proof.
  intros Hdec [Hlo Hhi] Hcols Hload Hres.
  unfold api_generate_map. rewrite Hdec, Hres.
  apply Nat.ltb_ge in Hlo. rewrite Hlo.
  assert (Hhi' : (30 <? length pts)%nat = false) by (apply Nat.ltb_ge; lia).
  rewrite Hhi'. rewrite Hcols, Nat.eqb_refl. cbn [orb negb].
  unfold generate_voronoi_map.
  pose proof (load_world_ok_labels read_file datasets_get_path kd_query pts
                (path_join UPLOAD_DIR (file f)) e cols
                ((fun name => path_join UPLOAD_DIR ("plugin_" +:+ name))
                   <$> plugin_file f)
                (draw_plugin f) (fill_ocean f) lat_n lon_n w Hload) as Hlab.
  destruct (voronoi_labels _ _ _ _ _ _ _ _ _ _ _ _) as [labels reads].
  cbn [fst] in *. subst labels. reflexivity.
Qed.

(** C6 as stated fails: the request with resolution "ultra" is answered with
    a raster of the medium size rather than with an error. *)
Lemma unknown_resolution_not_rejected :
  exists body,
    api_generate_map demo_read_file demo_get_path scan_query (ndarray2 nat)
      demo_render (demo_form "ultra")
    = StreamingResponse body
    /\ shape body = (1200, 2400)%nat.
Proof.
  assert (Hne : demo_points <> []) by discriminate.
  assert (Hres : resolve_extent (Some [0; 10; 0; 10]) (mk_frame (0, 0, 10, 10))
                 = [0; 10; 0; 10]) by reflexivity.
  pose proof (label_stage_eq scan_query _ demo_points (Some [0; 10; 0; 10])
                1200 2400 0 10 0 10 Hne Hres) as Hstage.
  cbv zeta in Hstage.
  assert (Hsize : resolution_size "ultra" = (1200, 2400)%nat)
    by (apply resolution_size_default; discriminate).
  assert (Hn : (2 <= length demo_points <= 30)%nat)
    by (cbn [demo_points length]; lia).
  rewrite (api_valid_form demo_read_file demo_get_path scan_query _ demo_render
             (demo_form "ultra") demo_points (Some [0; 10; 0; 10])
             ["red"; "blue"] (mk_frame (0, 0, 10, 10)) 1200 2400
             eq_refl Hn eq_refl eq_refl Hsize).
  rewrite Hstage. eexists. split; reflexivity.
Qed.

(** ** Loading the reference dataset *)

(** C7. When reading the caller's dataset fails, the bundled default is
    looked up and read, once: the run continues on the default dataset and
    gives what a run on the default's own path gives, with the read log
    [geojson_path; default path].  When the default cannot be found or read
    either, the run raises the loader's error and nothing else is returned:
    no labels are computed and the drawing stage is not entered. *)
Theorem reference_dataset_fallback
    (read_file : string -> option GeoDataFrame)
    (datasets_get_path : string -> option string)
    (kd_query : list (R * R * R) -> R * R * R -> nat)
    (png : Type) (render : RenderInput -> result png)
    (points : list (R * R)) (geojson_path : string) (extent : option (list R))
    (point_colors : list string) (plugin_path : option string)
    (draw_plugin fill_ocean : bool) (lat_n lon_n : nat) :
  read_file geojson_path = None ->
  let run path :=
    generate_voronoi_map read_file datasets_get_path kd_query png render
      points path extent point_colors plugin_path draw_plugin fill_ocean
      lat_n lon_n in
  (forall p w,
      datasets_get_path "naturalearth_lowres" = Some p ->
      read_file p = Some w ->
      fst (run geojson_path) = fst (run p)
      /\ snd (run geojson_path) = [geojson_path; p]
      /\ fst (voronoi_labels read_file datasets_get_path kd_query points
                geojson_path extent point_colors plugin_path draw_plugin
                fill_ocean lat_n lon_n)
         = label_stage kd_query w points extent lat_n lon_n)
  /\ (forall p,
        datasets_get_path "naturalearth_lowres" = Some p ->
        read_file p = None ->
        run geojson_path = (Raise (LoadError p), [geojson_path; p]))
  /\ (datasets_get_path "naturalearth_lowres" = None ->
      run geojson_path
      = (Raise (DatasetError "naturalearth_lowres"), [geojson_path])).
Proof.
  intros Hfail run. subst run. cbv beta.
  unfold generate_voronoi_map, voronoi_labels, load_world.
  rewrite Hfail. split; [|split].
  - intros p w Hp Hr. rewrite Hp, Hr. repeat split; reflexivity.
  - intros p Hp Hr. rewrite Hp, Hr. reflexivity.
  - intros Hp. rewrite Hp. reflexivity.
Qed.

Lemma reference_dataset_fallback_witness :
  let run path :=
    generate_voronoi_map demo_read_file demo_get_path scan_query (ndarray2 nat)
      demo_render demo_points path None ["red"; "blue"] None false true 2 3 in
  (forall p w,
      demo_get_path "naturalearth_lowres" = Some p ->
      demo_read_file p = Some w ->
      fst (run "missing.geojson") = fst (run p)
      /\ snd (run "missing.geojson") = ["missing.geojson"; p]
      /\ fst (voronoi_labels demo_read_file demo_get_path scan_query demo_points
                "missing.geojson" None ["red"; "blue"] None false true 2 3)
         = label_stage scan_query w demo_points None 2 3)
  /\ (forall p,
        demo_get_path "naturalearth_lowres" = Some p ->
        demo_read_file p = None ->
        run "missing.geojson" = (Raise (LoadError p), ["missing.geojson"; p]))
  /\ (demo_get_path "naturalearth_lowres" = None ->
      run "missing.geojson"
      = (Raise (DatasetError "naturalearth_lowres"), ["missing.geojson"])).
Proof.
  apply (reference_dataset_fallback demo_read_file demo_get_path scan_query
           (ndarray2 nat) demo_render demo_points "missing.geojson" None
           ["red"; "blue"] None false true 2 3).
  reflexivity.
Defined.

(** At the request level a failed load is answered with status 500 and the
    loader's message. *)
Lemma api_data_unavailable
    (read_file : string -> option GeoDataFrame)
    (datasets_get_path : string -> option string)
    (kd_query : list (R * R * R) -> R * R * R -> nat)
    (png : Type) (render : RenderInput -> result png) (f : Form)
    (pts : list (R * R)) (e : option (list R)) (cols : list string) (x : exn) :
  decoded f = Some (pts, e, cols) ->
  (2 <= length pts <= 30)%nat ->
  length cols = length pts ->
  fst (load_world read_file datasets_get_path (path_join UPLOAD_DIR (file f)))
  = Raise x ->
  api_generate_map read_file datasets_get_path kd_query png render f
  = HTTPException 500 (exn_str x).
Proof.
  intros Hdec [Hlo Hhi] Hcols Hload.
  unfold api_generate_map. rewrite Hdec.
  apply Nat.ltb_ge in Hlo. rewrite Hlo.
  assert (Hhi' : (30 <? length pts)%nat = false) by (apply Nat.ltb_ge; lia).
  rewrite Hhi'. rewrite Hcols, Nat.eqb_refl. cbn [orb negb].
  destruct (resolution_size (resolution f)) as [lat_n lon_n].
  unfold generate_voronoi_map, voronoi_labels.
  destruct (load_world _ _ _) as [r reads]. cbn [fst] in *. subst r.
  reflexivity.
Qed.

(** ** The raster depends on the sites, the resolved extent and the
       resolution only *)

Lemma label_stage_cases (kd_query : list (R * R * R) -> R * R * R -> nat)
    (w : GeoDataFrame) (points : list (R * R)) (e : option (list R))
    (lat_n lon_n : nat) :
  (points = [] /\ label_stage kd_query w points e lat_n lon_n = Raise IndexError)
  \/ (exists l,
        label_stage kd_query w points e lat_n lon_n = Ok l
        /\ extent_used l = resolve_extent e w
        /\ forall w' e',
             resolve_extent e' w' = resolve_extent e w ->
             exists l',
               label_stage kd_query w' points e' lat_n lon_n = Ok l'
               /\ nearest_city l' = nearest_city l).
Proof.
  destruct points as [|p points].
  - left. split; [reflexivity | apply label_stage_no_points].
  - right.
    destruct (length_four _ (resolve_extent_length e w)) as (a & b & c & d & Hres).
    assert (Hne : p :: points <> []) by discriminate.
    rewrite (label_stage_eq kd_query w _ e lat_n lon_n a b c d Hne Hres).
    cbv zeta. eexists. split; [reflexivity|]. split; [symmetry; exact Hres|].
    intros w' e' Hres'. rewrite Hres in Hres'.
    rewrite (label_stage_eq kd_query w' _ e' lat_n lon_n a b c d Hne Hres').
    cbv zeta. eexists. split; reflexivity.
Qed.

(** C9. The four rendering arguments (point_colors, plugin_path,
    draw_plugin, fill_ocean) do not enter the label stage at all, and two
    runs on the same sites and resolution whose resolved extents agree give
    the same label raster, whatever their colours, plug-in arguments, ocean
    flag, and whichever dataset and caller extent the resolved extent came
    from. *)
Theorem raster_depends_on_sites_extent_resolution
    (read_file : string -> option GeoDataFrame)
    (datasets_get_path : string -> option string)
    (kd_query : list (R * R * R) -> R * R * R -> nat)
    (points : list (R * R)) (lat_n lon_n : nat)
    (path1 path2 : string) (extent1 extent2 : option (list R))
    (colors1 colors2 : list string) (plugin1 plugin2 : option string)
    (draw1 draw2 ocean1 ocean2 : bool) :
  let run path extent colors plugin draw ocean :=
    fst (voronoi_labels read_file datasets_get_path kd_query points path extent
           colors plugin draw ocean lat_n lon_n) in
  run path1 extent1 colors1 plugin1 draw1 ocean1
  = run path1 extent1 colors2 plugin2 draw2 ocean2
  /\ (extent_used <$> run path1 extent1 colors1 plugin1 draw1 ocean1
      = extent_used <$> run path2 extent2 colors2 plugin2 draw2 ocean2 ->
      nearest_city <$> run path1 extent1 colors1 plugin1 draw1 ocean1
      = nearest_city <$> run path2 extent2 colors2 plugin2 draw2 ocean2).
Proof.
  intros run. subst run. cbv beta. split; [reflexivity|].
  unfold voronoi_labels.
  destruct (load_world read_file datasets_get_path path1) as [[w1|x1] reads1];
    destruct (load_world read_file datasets_get_path path2) as [[w2|x2] reads2];
    cbn [fst mbind result_bind].
  - destruct (label_stage_cases kd_query w1 points extent1 lat_n lon_n)
      as [[-> H1]|(l1 & H1 & He1 & Hall)].
    + rewrite !label_stage_no_points. reflexivity.
    + destruct (label_stage_cases kd_query w2 points extent2 lat_n lon_n)
        as [[-> H2]|(l2 & H2 & He2 & _)].
      * rewrite !label_stage_no_points. reflexivity.
      * rewrite H1, H2. cbn [fmap result_fmap]. intros Hext.
        injection Hext as Hext. rewrite He1, He2 in Hext.
        destruct (Hall w2 extent2 (eq_sym Hext)) as (l2' & H2' & Hn).
        rewrite H2 in H2'. injection H2' as <-. rewrite Hn. reflexivity.
  - destruct (label_stage_cases kd_query w1 points extent1 lat_n lon_n)
      as [[-> H1]|(l1 & H1 & _)]; rewrite H1; cbn [fmap result_fmap];
      intros Hext; [congruence | discriminate].
  - destruct (label_stage_cases kd_query w2 points extent2 lat_n lon_n)
      as [[-> H2]|(l2 & H2 & _)]; rewrite H2; cbn [fmap result_fmap];
      intros Hext; [congruence | discriminate].
  - cbn [fmap result_fmap]. intros Hext. congruence.
Qed.

Lemma raster_depends_on_sites_extent_resolution_witness :
  fst (voronoi_labels demo_read_file demo_get_path scan_query demo_points
         "../uploads/world.geojson" None ["red"; "blue"] None false true 2 3)
  = fst (voronoi_labels demo_read_file demo_get_path scan_query demo_points
           "../uploads/world.geojson" None ["green"] (Some "overlay.shp") true
           false 2 3)
  /\ nearest_city <$>
       fst (voronoi_labels demo_read_file demo_get_path scan_query demo_points
              "../uploads/world.geojson" None ["red"; "blue"] None false true
              2 3)
     = nearest_city <$>
         fst (voronoi_labels demo_read_file demo_get_path scan_query
                demo_points "missing.geojson" (Some [-0.5; 10.5; -0.5; 10.5])
                ["green"] (Some "overlay.shp") true false 2 3).
Proof.
  pose proof (raster_depends_on_sites_extent_resolution demo_read_file
                demo_get_path scan_query demo_points 2 3
                "../uploads/world.geojson" "missing.geojson"
                None (Some [-0.5; 10.5; -0.5; 10.5])
                ["red"; "blue"] ["green"] None (Some "overlay.shp")
                false true true false) as H.
  cbv zeta beta in H. destruct H as [H1 H2]. split; [exact H1|].
  apply H2.
  rewrite demo_labels.
  rewrite (load_world_ok_labels demo_read_file demo_get_path scan_query
             demo_points "missing.geojson" (Some [-0.5; 10.5; -0.5; 10.5])
             ["green"] (Some "overlay.shp") true false 2 3
             (mk_frame (-180, -90, 180, 90)) eq_refl).
  assert (Hne : demo_points <> []) by discriminate.
  rewrite (label_stage_eq scan_query _ demo_points None 2 3
             (-0.5) 10.5 (-0.5) 10.5 Hne auto_extent_example).
  rewrite (label_stage_eq scan_query _ demo_points
             (Some [-0.5; 10.5; -0.5; 10.5]) 2 3
             (-0.5) 10.5 (-0.5) 10.5 Hne eq_refl).
  reflexivity.
Defined.

(** ** Ties

    The contract of the nearest-neighbour query leaves the choice among
    equidistant sites open: the first-minimum and the last-minimum scan both
    meet it, and they answer differently when two sites coincide. *)

Lemma argmin_last_from_spec (q : R * R * R) (rest : list (R * R * R)) :
  forall (pre : list (R * R * R)) (best : nat) (dbest : R) (sb : R * R * R),
    (pre ++ rest) !! best = Some sb ->
    dist3 q sb = dbest ->
    (forall m t, pre !! m = Some t -> dbest <= dist3 q t) ->
    nearest (pre ++ rest) q (argmin_last_from q rest (length pre) best dbest).
Proof.
  induction rest as [|s rest IH]; intros pre best dbest sb Hb Hd Hpre.
  - simpl. exists sb. split; [exact Hb|].
    intros m t Hm. rewrite app_nil_r in Hm. rewrite Hd. eauto.
  - simpl. replace (pre ++ s :: rest) with ((pre ++ [s]) ++ rest) in *
      by (rewrite <- app_assoc; reflexivity).
    replace (S (length pre)) with (length (pre ++ [s]))
      by (rewrite length_app; simpl; lia).
    assert (Hs : ((pre ++ [s]) ++ rest) !! length pre = Some s).
    { rewrite <- app_assoc. simpl. apply list_lookup_middle. reflexivity. }
    destruct (Rle_dec (dist3 q s) dbest) as [Hle|Hgt].
    + apply (IH (pre ++ [s]) (length pre) (dist3 q s) s Hs eq_refl).
      intros m t Hm. apply lookup_app_Some in Hm as [Hm|[Hlen Hm]].
      * specialize (Hpre m t Hm). lra.
      * apply list_lookup_singleton_Some in Hm as [_ <-]. lra.
    + apply (IH (pre ++ [s]) best dbest sb Hb Hd).
      intros m t Hm. apply lookup_app_Some in Hm as [Hm|[Hlen Hm]].
      * exact (Hpre m t Hm).
      * apply list_lookup_singleton_Some in Hm as [_ <-]. lra.
Qed.

Lemma scan_query_last_nearest (sites : list (R * R * R)) (q : R * R * R) :
  sites <> [] -> nearest sites q (scan_query_last sites q).
Proof.
  destruct sites as [|s rest]; [congruence|]. intros _.
  apply (argmin_last_from_spec q rest [s] 0 (dist3 q s) s); [reflexivity..|].
  intros m t Hm. apply list_lookup_singleton_Some in Hm as [_ <-]. lra.
Qed.

Lemma coincident_sites_tie (s q : R * R * R) :
  scan_query [s; s] q = 0%nat /\ scan_query_last [s; s] q = 1%nat.
Proof.
  unfold scan_query, scan_query_last. simpl. split.
  - destruct (Rlt_dec (dist3 q s) (dist3 q s)); [lra | reflexivity].
  - destruct (Rle_dec (dist3 q s) (dist3 q s)); [reflexivity | lra].
Qed.

(** * Further properties of the code *)

(** ** The projection onto the unit sphere *)

Lemma project_point_unit (p : R * R) : unit3 (project_point p).
Proof.
  unfold unit3, project_point, dot3.
  pose proof (sin2_cos2 (deg2rad (fst p))) as H1.
  pose proof (sin2_cos2 (deg2rad (snd p))) as H2.
  unfold Rsqr in H1, H2.
  set (c1 := cos (deg2rad (fst p))) in *. set (s1 := sin (deg2rad (fst p))) in *.
  set (c2 := cos (deg2rad (snd p))) in *. set (s2 := sin (deg2rad (snd p))) in *.
  replace (c1 * c2 * (c1 * c2) + c1 * s2 * (c1 * s2) + s1 * s1)
    with (c1 * c1 * (s2 * s2 + c2 * c2) + s1 * s1) by ring.
  rewrite H2. lra.
Qed.

Lemma broadcast_rows (lat : list R) (lo : R) :
  zip_with (fun xy zi => (fst xy, snd xy, zi))
    (zip (map (fun x => x * cos (deg2rad lo)) (map cos (map deg2rad lat)))
         (map (fun x => x * sin (deg2rad lo)) (map cos (map deg2rad lat))))
    (map sin (map deg2rad lat))
  = map (fun la => project_point (la, lo)) lat.
Proof.
  induction lat as [|la lat IH]; simpl; [reflexivity|].
  f_equal. exact IH.
Qed.

(** When the longitude array has one entry and the latitude array another
    length, the longitude is broadcast over the latitudes. *)
Lemma geo_to_cartesian_broadcast (lat : list R) (lo : R) :
  geo_to_cartesian lat [lo] = Ok (map (fun la => project_point (la, lo)) lat).
Proof.
  destruct lat as [|la [|la' lat]].
  - reflexivity.
  - rewrite geo_to_cartesian_rows by reflexivity. reflexivity.
  - unfold geo_to_cartesian, np_mul. simpl length. simpl Nat.eqb.
    cbn [map mbind result_bind].
    rewrite column_stack_same_length
      by (simpl; rewrite ?length_map; reflexivity).
    f_equal. apply (broadcast_rows (la :: la' :: lat) lo).
Qed.

Lemma geo_to_cartesian_mismatch (lat lon : list R) :
  length lat <> length lon -> length lon <> 1%nat ->
  geo_to_cartesian lat lon = Raise ValueError.
Proof.
  intros Hne H1. unfold geo_to_cartesian, np_mul.
  rewrite !length_map. destruct (Nat.eqb_neq (length lat) (length lon)) as [_ E].
  rewrite (E Hne). clear E.
  destruct lat as [|la [|la' lat]]; destruct lon as [|lo [|lo' lon]];
    simpl in Hne, H1; try congruence; try reflexivity.
  all: cbn [map mbind result_bind]; unfold column_stack;
    cbn [length map Nat.eqb andb]; rewrite ?andb_false_r; reflexivity.
Qed.

(** X2. [geo_to_cartesian] succeeds exactly when the two arrays have the
    same length or the longitude array has one entry, and then returns one
    row per latitude; a single longitude is shared by all rows.  In every
    other case it raises [ValueError]. *)
Theorem geo_to_cartesian_shape_rule (lat_deg lon_deg : list R) :
  (length lat_deg = length lon_deg \/ length lon_deg = 1%nat ->
   exists rows,
     geo_to_cartesian lat_deg lon_deg = Ok rows
     /\ length rows = length lat_deg
     /\ forall lo, lon_deg = [lo] ->
          rows = map (fun la => project_point (la, lo)) lat_deg)
  /\ (length lat_deg <> length lon_deg -> length lon_deg <> 1%nat ->
      geo_to_cartesian lat_deg lon_deg = Raise ValueError).
Proof.
  split; [|apply geo_to_cartesian_mismatch].
  intros Hshape.
  destruct (decide (length lon_deg = 1%nat)) as [H1|H1].
  - destruct lon_deg as [|lo [|lo' lon]]; try discriminate.
    rewrite geo_to_cartesian_broadcast. eexists. split; [reflexivity|].
    split; [apply length_map|]. intros lo0 Hlo. injection Hlo as ->. reflexivity.
  - destruct Hshape as [Heq|]; [|contradiction].
    rewrite geo_to_cartesian_rows by exact Heq. eexists. split; [reflexivity|].
    split.
    + rewrite length_map, length_zip_with. lia.
    + intros lo ->. simpl in H1. contradiction.
Qed.

Lemma geo_to_cartesian_shape_rule_witness :
  exists rows,
    geo_to_cartesian [10; 20; 30] [5] = Ok rows
    /\ length rows = length [10; 20; 30]
    /\ forall lo, [5] = [lo] ->
         rows = map (fun la => project_point (la, lo)) [10; 20; 30].
Proof.
  destruct (geo_to_cartesian_shape_rule [10; 20; 30] [5]) as [Hok _].
  apply Hok. right. reflexivity.
Defined.

(** ** Failure of the label stage *)


(** ** Shapes of the arrays *)

(** X8. Whenever there is a site, the two grids and the raster are
    well-formed arrays of lat_n * lon_n entries, and the raster has an entry
    at (i, j) exactly for i < lat_n and j < lon_n; a zero resolution gives
    empty arrays, not an error. *)
Theorem label_arrays_well_formed
    (kd_query : list (R * R * R) -> R * R * R -> nat)
    (w : GeoDataFrame) (points : list (R * R)) (e : option (list R))
    (lat_n lon_n : nat) :
  points <> [] ->
  exists l,
    label_stage kd_query w points e lat_n lon_n = Ok l
    /\ well_formed (lon_grid l) /\ well_formed (lat_grid l)
    /\ well_formed (nearest_city l)
    /\ length (flat (nearest_city l)) = (lat_n * lon_n)%nat
    /\ forall i j,
         is_Some (get2 (nearest_city l) i j) <-> (i < lat_n /\ j < lon_n)%nat.
Proof.
  intros Hne.
  destruct (length_four _ (resolve_extent_length e w)) as (a & b & c & d & Hres).
  rewrite (label_stage_eq kd_query w points e lat_n lon_n a b c d Hne Hres).
  cbv zeta. eexists. split; [reflexivity|].
  cbn [lon_grid lat_grid nearest_city].
  set (la_s := linspace _ _ lat_n). set (lo_s := linspace _ _ lon_n).
  assert (Hlat : length la_s = lat_n) by apply linspace_length.
  assert (Hlon : length lo_s = lon_n) by apply linspace_length.
  destruct (meshgrid_flat_length lo_s la_s) as [Hf1 Hf2].
  destruct (meshgrid_shape lo_s la_s) as [Hs1 Hs2].
  assert (Hlen : length (map (kd_query (map project_point points))
                   (map project_point
                      (zip (flat (snd (meshgrid lo_s la_s)))
                           (flat (fst (meshgrid lo_s la_s))))))
                 = (lat_n * lon_n)%nat).
  { rewrite !length_map, length_zip_with, Hf1, Hf2, Hlat, Hlon. lia. }
  split; [unfold well_formed; rewrite Hs1, Hf1; reflexivity|].
  split; [unfold well_formed; rewrite Hs2, Hf2; reflexivity|].
  split; [unfold well_formed; cbn [flat shape fst snd]; exact Hlen|].
  split; [exact Hlen|].
  intros i j. unfold get2. cbn [flat shape fst snd]. split.
  - intros Hsome.
    destruct (bool_decide (i < lat_n)%nat) eqn:Ei;
      destruct (bool_decide (j < lon_n)%nat) eqn:Ej;
      cbn [andb] in Hsome;
      try (destruct Hsome as [? Hsome]; discriminate).
    apply bool_decide_eq_true in Ei, Ej. auto.
  - intros [Hi Hj]. rewrite !bool_decide_eq_true_2 by assumption. cbn [andb].
    apply lookup_lt_is_Some. rewrite Hlen. nia.
Qed.

Lemma label_arrays_well_formed_witness :
  exists l,
    label_stage scan_query (mk_frame (0, 0, 10, 10)) demo_points None 0 3 = Ok l
    /\ well_formed (lon_grid l) /\ well_formed (lat_grid l)
    /\ well_formed (nearest_city l)
    /\ length (flat (nearest_city l)) = (0 * 3)%nat
    /\ forall i j,
         is_Some (get2 (nearest_city l) i j) <-> (i < 0 /\ j < 3)%nat.
Proof.
  apply (label_arrays_well_formed scan_query (mk_frame (0, 0, 10, 10))
           demo_points None 0 3).
  discriminate.
Defined.

(** ** The label of a sample *)

Lemma dist3_self (q : R * R * R) : dist3 q q = 0.
Proof.
  destruct q as [[x y] z]. unfold dist3.
  replace ((x - x) * (x - x) + (y - y) * (y - y) + (z - z) * (z - z)) with 0
    by ring.
  apply sqrt_0.
Qed.

Lemma sumsq_nonneg (a b c : R) : 0 <= a * a + b * b + c * c.
Proof.
  pose proof (Rle_0_sqr a) as Ha. pose proof (Rle_0_sqr b) as Hb.
  pose proof (Rle_0_sqr c) as Hc. unfold Rsqr in Ha, Hb, Hc. lra.
Qed.

Lemma dist3_zero (p q : R * R * R) : dist3 p q <= 0 -> q = p.
Proof.
  destruct p as [[px py] pz], q as [[qx qy] qz]. unfold dist3. intros H.
  set (s := (px - qx) * (px - qx) + (py - qy) * (py - qy) + (pz - qz) * (pz - qz)) in *.
  assert (Hs : 0 <= s) by apply sumsq_nonneg.
  assert (H0 : sqrt s = 0) by (pose proof (sqrt_pos s); lra).
  apply sqrt_eq_0 in H0; [|exact Hs]. unfold s in H0.
  pose proof (Rle_0_sqr (px - qx)) as Hx. pose proof (Rle_0_sqr (py - qy)) as Hy.
  pose proof (Rle_0_sqr (pz - qz)) as Hz. unfold Rsqr in Hx, Hy, Hz.
  assert (Ex : (px - qx) * (px - qx) = 0) by lra.
  assert (Ey : (py - qy) * (py - qy) = 0) by lra.
  assert (Ez : (pz - qz) * (pz - qz) = 0) by lra.
  apply Rmult_integral in Ex, Ey, Ez.
  f_equal; [f_equal|]; lra.
Qed.

Lemma dist3_le_dot (p q r : R * R * R) :
  unit3 p -> unit3 q -> unit3 r ->
  (dist3 p q <= dist3 p r <-> dot3 p r <= dot3 p q).
Proof.
  destruct p as [[px py] pz], q as [[qx qy] qz], r as [[rx ry] rz].
  unfold unit3, dist3, dot3. intros Hp Hq Hr.
  set (sq := (px - qx) * (px - qx) + (py - qy) * (py - qy) + (pz - qz) * (pz - qz)).
  set (sr := (px - rx) * (px - rx) + (py - ry) * (py - ry) + (pz - rz) * (pz - rz)).
  assert (Hsq : sq = 2 - 2 * (px * qx + py * qy + pz * qz)).
  { unfold sq. ring_simplify. ring_simplify in Hp. ring_simplify in Hq. lra. }
  assert (Hsr : sr = 2 - 2 * (px * rx + py * ry + pz * rz)).
  { unfold sr. ring_simplify. ring_simplify in Hp. ring_simplify in Hr. lra. }
  assert (H0q : 0 <= sq) by apply sumsq_nonneg.
  assert (H0r : 0 <= sr) by apply sumsq_nonneg.
  split; intros H.
  - apply sqrt_le_0 in H; [lra | assumption..].
  - apply sqrt_le_1; [assumption..|lra].
Qed.

(** The entry of the raster at a sample, for a query that meets its
    contract. *)
Lemma label_entry (kd_query : list (R * R * R) -> R * R * R -> nat)
    (w : GeoDataFrame) (points : list (R * R)) (e : option (list R))
    (lat_n lon_n : nat) (l : Labels) (i j : nat) (la lo : R) :
  (forall sites q, sites <> [] -> nearest sites q (kd_query sites q)) ->
  label_stage kd_query w points e lat_n lon_n = Ok l ->
  lats l !! i = Some la -> lons l !! j = Some lo ->
  exists k pk,
    get2 (nearest_city l) i j = Some k
    /\ points !! k = Some pk
    /\ forall m pm, points !! m = Some pm ->
         dist3 (project_point (la, lo)) (project_point pk)
         <= dist3 (project_point (la, lo)) (project_point pm).
Proof.
  intros Hkd Hl Hla Hlo.
  destruct points as [|p0 points];
    [rewrite label_stage_no_points in Hl; discriminate|].
  set (pts := p0 :: points) in *.
  assert (Hne : pts <> []) by discriminate.
  destruct (length_four _ (resolve_extent_length e w)) as (a & b & c & d & Hres).
  rewrite (label_stage_eq kd_query w pts e lat_n lon_n a b c d Hne Hres) in Hl.
  cbv zeta in Hl. injection Hl as <-. cbn [lats lons nearest_city] in *.
  set (la_s := linspace _ _ lat_n) in *. set (lo_s := linspace _ _ lon_n) in *.
  assert (Hi : (i < lat_n)%nat).
  { apply lookup_lt_Some in Hla. unfold la_s in Hla.
    rewrite linspace_length in Hla. exact Hla. }
  assert (Hj : (j < lon_n)%nat).
  { apply lookup_lt_Some in Hlo. unfold lo_s in Hlo.
    rewrite linspace_length in Hlo. exact Hlo. }
  assert (Hlon : length lo_s = lon_n) by apply linspace_length.
  assert (Hsites : map project_point pts <> []) by discriminate.
  destruct (Hkd (map project_point pts) (project_point (la, lo)) Hsites)
    as (s & Hs & Hmin).
  rewrite lookup_map in Hs.
  destruct (pts !! kd_query (map project_point pts) (project_point (la, lo)))
    as [pk|] eqn:Hpk; [|discriminate].
  injection Hs as <-.
  exists (kd_query (map project_point pts) (project_point (la, lo))), pk.
  split; [|split; [exact Hpk|]].
  - unfold get2. cbn [flat shape fst snd].
    rewrite !bool_decide_eq_true_2 by assumption. cbn [andb].
    rewrite <- Hlon.
    apply (raster_lookup kd_query _ la_s lo_s i j la lo Hla Hlo).
  - intros m pm Hm. apply (Hmin m). rewrite lookup_map, Hm. reflexivity.
Qed.

(** X9. When a grid sample falls exactly on a site, the site the raster
    names there projects to the same point of the sphere as the sample (it
    is that site or one that coincides with it).  The nearest-neighbour
    query is taken with its contract. *)
Theorem sample_on_site_gets_that_site
    (kd_query : list (R * R * R) -> R * R * R -> nat)
    (w : GeoDataFrame) (points : list (R * R)) (e : option (list R))
    (lat_n lon_n : nat) (a b c d : R) (i j : nat) :
  (forall sites q, sites <> [] -> nearest sites q (kd_query sites q)) ->
  resolve_extent e w = [a; b; c; d] ->
  (i < lat_n)%nat -> (j < lon_n)%nat ->
  (sample (lat_window c d) lat_n i, sample (lon_window a b) lon_n j) ∈ points ->
  exists l k p,
    label_stage kd_query w points e lat_n lon_n = Ok l
    /\ lats l !! i = Some (sample (lat_window c d) lat_n i)
    /\ lons l !! j = Some (sample (lon_window a b) lon_n j)
    /\ get2 (nearest_city l) i j = Some k
    /\ points !! k = Some p
    /\ project_point p
       = project_point (sample (lat_window c d) lat_n i,
                        sample (lon_window a b) lon_n j).
Proof.
  intros Hkd Hres Hi Hj Hin.
  set (la := sample (lat_window c d) lat_n i) in *.
  set (lo := sample (lon_window a b) lon_n j) in *.
  assert (Hne : points <> []) by (intros ->; inversion Hin).
  pose proof (label_stage_eq kd_query w points e lat_n lon_n a b c d Hne Hres)
    as Hstage.
  cbv zeta in Hstage.
  match type of Hstage with _ = Ok ?r => set (l := r) in * end.
  assert (Hla : lats l !! i = Some la) by (apply linspace_lookup, Hi).
  assert (Hlo : lons l !! j = Some lo) by (apply linspace_lookup, Hj).
  destruct (label_entry kd_query w points e lat_n lon_n l i j la lo
              Hkd Hstage Hla Hlo) as (k & pk & Hget & Hpk & Hmin).
  exists l, k, pk. repeat split; try assumption.
  apply list_elem_of_lookup in Hin as [m Hm].
  specialize (Hmin m (la, lo) Hm). rewrite dist3_self in Hmin.
  apply dist3_zero in Hmin. exact Hmin.
Qed.

Lemma sample_on_site_gets_that_site_witness :
  exists l k p,
    label_stage scan_query (mk_frame (0, 0, 10, 10))
      [(40, 50); (sample (lat_window 0 10) 2 0, sample (lon_window 0 10) 3 1)]
      (Some [0; 10; 0; 10]) 2 3 = Ok l
    /\ lats l !! O = Some (sample (lat_window 0 10) 2 0)
    /\ lons l !! 1%nat = Some (sample (lon_window 0 10) 3 1)
    /\ get2 (nearest_city l) 0 1 = Some k
    /\ [(40, 50); (sample (lat_window 0 10) 2 0, sample (lon_window 0 10) 3 1)]
         !! k = Some p
    /\ project_point p
       = project_point (sample (lat_window 0 10) 2 0,
                        sample (lon_window 0 10) 3 1).
Proof.
  apply (sample_on_site_gets_that_site scan_query (mk_frame (0, 0, 10, 10)) _
           (Some [0; 10; 0; 10]) 2 3 0 10 0 10 0 1).
  - exact scan_query_nearest.
  - reflexivity.
  - lia.
  - lia.
  - apply list_elem_of_further, list_elem_of_here.
Defined.

(** X10. The site the raster names at a sample has the largest inner
    product with the sample's projection among all sites: for these unit
    vectors that is the largest cosine of the central angle, so the
    Euclidean nearest site is the nearest one along the sphere. *)
Theorem raster_entry_maximises_cosine
    (kd_query : list (R * R * R) -> R * R * R -> nat)
    (w : GeoDataFrame) (points : list (R * R)) (e : option (list R))
    (lat_n lon_n : nat) (i j : nat) :
  (forall sites q, sites <> [] -> nearest sites q (kd_query sites q)) ->
  points <> [] ->
  (i < lat_n)%nat -> (j < lon_n)%nat ->
  exists l la lo k pk,
    label_stage kd_query w points e lat_n lon_n = Ok l
    /\ lats l !! i = Some la /\ lons l !! j = Some lo
    /\ get2 (nearest_city l) i j = Some k
    /\ points !! k = Some pk
    /\ forall m pm, points !! m = Some pm ->
         dot3 (project_point (la, lo)) (project_point pm)
         <= dot3 (project_point (la, lo)) (project_point pk).
Proof.
  intros Hkd Hne Hi Hj.
  destruct (length_four _ (resolve_extent_length e w)) as (a & b & c & d & Hres).
  pose proof (label_stage_eq kd_query w points e lat_n lon_n a b c d Hne Hres)
    as Hstage.
  cbv zeta in Hstage.
  match type of Hstage with _ = Ok ?r => set (l := r) in * end.
  assert (Hla : lats l !! i = Some (sample (lat_window c d) lat_n i))
    by (apply linspace_lookup, Hi).
  assert (Hlo : lons l !! j = Some (sample (lon_window a b) lon_n j))
    by (apply linspace_lookup, Hj).
  destruct (label_entry kd_query w points e lat_n lon_n l i j _ _
              Hkd Hstage Hla Hlo) as (k & pk & Hget & Hpk & Hmin).
  exists l, (sample (lat_window c d) lat_n i),
    (sample (lon_window a b) lon_n j), k, pk.
  repeat split; try assumption.
  intros m pm Hm. apply dist3_le_dot; try apply project_point_unit.
  apply (Hmin m pm Hm).
Qed.

Lemma raster_entry_maximises_cosine_witness :
  exists l la lo k pk,
    label_stage scan_query (mk_frame (0, 0, 10, 10)) demo_points None 2 3 = Ok l
    /\ lats l !! 1%nat = Some la /\ lons l !! 2%nat = Some lo
    /\ get2 (nearest_city l) 1 2 = Some k
    /\ demo_points !! k = Some pk
    /\ forall m pm, demo_points !! m = Some pm ->
         dot3 (project_point (la, lo)) (project_point pm)
         <= dot3 (project_point (la, lo)) (project_point pk).
Proof.
  apply (raster_entry_maximises_cosine scan_query (mk_frame (0, 0, 10, 10))
           demo_points None 2 3 1 2).
  - exact scan_query_nearest.
  - discriminate.
  - lia.
  - lia.
Defined.

(** ** Extents inside the legal ranges *)

Lemma window_covers (frac lo hi x y : R) :
  0 <= frac -> lo <= x -> x <= y -> y <= hi ->
  lo <= fst (clamp_window lo hi (widen frac (x, y))) <= x
  /\ y <= snd (clamp_window lo hi (widen frac (x, y))) <= hi.
Proof.
  intros Hf Hlo Hxy Hhi. unfold clamp_window, widen. cbn [fst snd].
  assert (Hm : 0 <= frac * (y - x)) by (apply Rmult_le_pos; lra).
  unfold Rmax, Rmin.
  destruct (Rle_dec lo (x - frac * (y - x)));
    destruct (Rle_dec hi (y + frac * (y - x))); lra.
Qed.

Lemma grid_legal (kd_query : list (R * R * R) -> R * R * R -> nat)
    (w : GeoDataFrame) (points : list (R * R)) (e : option (list R))
    (lat_n lon_n : nat) (a b c d : R) :
  points <> [] ->
  resolve_extent e w = [a; b; c; d] ->
  legal_lon a -> a <= b -> legal_lon b ->
  legal_lat c -> c <= d -> legal_lat d ->
  exists l,
    label_stage kd_query w points e lat_n lon_n = Ok l
    /\ lats l = linspace (fst (lat_window c d)) (snd (lat_window c d)) lat_n
    /\ lons l = linspace (fst (lon_window a b)) (snd (lon_window a b)) lon_n
    /\ Forall legal_lat (lats l) /\ Forall legal_lon (lons l).
Proof.
  intros Hne Hres [Ha _] Hab [_ Hb] [Hc _] Hcd [_ Hd].
  rewrite (label_stage_eq kd_query w points e lat_n lon_n a b c d Hne Hres).
  cbv zeta. eexists. split; [reflexivity|]. cbn [lats lons].
  split; [reflexivity|]. split; [reflexivity|].
  assert (H01 : 0 <= 0.1) by lra.
  destruct (window_covers 0.1 (-90) 90 c d H01 Hc Hcd Hd) as [Hw1 Hw2].
  destruct (window_covers 0.1 (-180) 180 a b H01 Ha Hab Hb) as [Hw3 Hw4].
  fold (lat_window c d) in Hw1, Hw2. fold (lon_window a b) in Hw3, Hw4.
  split; apply linspace_Forall; intros i Hi.
  - apply (sample_between (-90) 90 _ lat_n i Hi); cbn [fst snd]; lra.
  - apply (sample_between (-180) 180 _ lon_n i Hi); cbn [fst snd]; lra.
Qed.

(** X11. For a reference dataset whose bounding box is ordered and inside
    the legal ranges, the automatically derived extent is again ordered and
    legal and contains the bounding box:
    -180 <= e0 <= min_lon <= max_lon <= e1 <= 180, and likewise for
    latitude. *)
Theorem auto_extent_contains_box (e : option (list R)) (w : GeoDataFrame)
    (min_lon min_lat max_lon max_lat : R) :
  (e = None \/ exists l, e = Some l /\ length l <> 4%nat) ->
  total_bounds w = (min_lon, min_lat, max_lon, max_lat) ->
  -180 <= min_lon -> min_lon <= max_lon -> max_lon <= 180 ->
  -90 <= min_lat -> min_lat <= max_lat -> max_lat <= 90 ->
  exists e0 e1 e2 e3,
    resolve_extent e w = [e0; e1; e2; e3]
    /\ -180 <= e0 <= min_lon /\ max_lon <= e1 <= 180
    /\ -90 <= e2 <= min_lat /\ max_lat <= e3 <= 90.
Proof.
  intros He Hb H1 H2 H3 H4 H5 H6.
  rewrite (resolve_extent_auto e w He), (auto_extent_eq w _ _ _ _ Hb).
  assert (H05 : 0 <= 0.05) by lra.
  destruct (window_covers 0.05 (-180) 180 min_lon max_lon H05 H1 H2 H3).
  destruct (window_covers 0.05 (-90) 90 min_lat max_lat H05 H4 H5 H6).
  do 4 eexists. split; [reflexivity|]. auto.
Qed.

Lemma auto_extent_contains_box_witness :
  exists e0 e1 e2 e3,
    resolve_extent None (mk_frame (-175, 40, 30, 88)) = [e0; e1; e2; e3]
    /\ -180 <= e0 <= -175 /\ 30 <= e1 <= 180
    /\ -90 <= e2 <= 40 /\ 88 <= e3 <= 90.
Proof.
  apply (auto_extent_contains_box None (mk_frame (-175, 40, 30, 88))
           (-175) 40 30 88);
    [left; reflexivity | reflexivity | lra..].
Defined.

(** X12. With no usable caller extent and a reference dataset whose
    bounding box is ordered and legal, every grid latitude and longitude is
    legal, and for a resolution of at least two the grid reaches beyond the
    dataset: its first latitude is at most min_lat, its last at least
    max_lat, and likewise for longitude. *)
Theorem auto_grid_covers_dataset
    (kd_query : list (R * R * R) -> R * R * R -> nat)
    (w : GeoDataFrame) (points : list (R * R)) (e : option (list R))
    (lat_n lon_n : nat) (min_lon min_lat max_lon max_lat : R) :
  points <> [] ->
  (e = None \/ exists l, e = Some l /\ length l <> 4%nat) ->
  total_bounds w = (min_lon, min_lat, max_lon, max_lat) ->
  -180 <= min_lon -> min_lon <= max_lon -> max_lon <= 180 ->
  -90 <= min_lat -> min_lat <= max_lat -> max_lat <= 90 ->
  exists l,
    label_stage kd_query w points e lat_n lon_n = Ok l
    /\ Forall legal_lat (lats l) /\ Forall legal_lon (lons l)
    /\ ((2 <= lat_n)%nat ->
        exists first last,
          lats l !! O = Some first /\ lats l !! (lat_n - 1)%nat = Some last
          /\ first <= min_lat /\ max_lat <= last)
    /\ ((2 <= lon_n)%nat ->
        exists first last,
          lons l !! O = Some first /\ lons l !! (lon_n - 1)%nat = Some last
          /\ first <= min_lon /\ max_lon <= last).
Proof.
  intros Hne He Hb H1 H2 H3 H4 H5 H6.
  assert (H05 : 0 <= 0.05) by lra. assert (H01 : 0 <= 0.1) by lra.
  destruct (window_covers 0.05 (-180) 180 min_lon max_lon H05 H1 H2 H3)
    as [Ha Hb'].
  destruct (window_covers 0.05 (-90) 90 min_lat max_lat H05 H4 H5 H6)
    as [Hc Hd].
  pose proof (auto_extent_eq w _ _ _ _ Hb) as Hauto.
  rewrite <- (resolve_extent_auto e w He) in Hauto.
  match type of Hauto with _ = [?a; ?b; ?c; ?d] =>
    set (e0 := a) in *; set (e1 := b) in *; set (e2 := c) in *;
    set (e3 := d) in *
  end.
  destruct (grid_legal kd_query w points e lat_n lon_n e0 e1 e2 e3 Hne Hauto)
    as (l & Hl & Hlats & Hlons & Hflat & Hflon);
    try (unfold legal_lon, legal_lat; lra).
  exists l. split; [exact Hl|]. split; [exact Hflat|]. split; [exact Hflon|].
  destruct (window_covers 0.1 (-90) 90 e2 e3 H01) as [Hw1 Hw2]; try lra.
  destruct (window_covers 0.1 (-180) 180 e0 e1 H01) as [Hw3 Hw4]; try lra.
  fold (lat_window e2 e3) in Hw1, Hw2. fold (lon_window e0 e1) in Hw3, Hw4.
  split; intros Hn.
  - exists (fst (lat_window e2 e3)), (snd (lat_window e2 e3)).
    rewrite Hlats, !linspace_lookup by lia.
    rewrite sample_first, sample_last by lia. cbn [fst snd].
    repeat split; lra.
  - exists (fst (lon_window e0 e1)), (snd (lon_window e0 e1)).
    rewrite Hlons, !linspace_lookup by lia.
    rewrite sample_first, sample_last by lia. cbn [fst snd].
    repeat split; lra.
Qed.

Lemma auto_grid_covers_dataset_witness :
  exists l,
    label_stage scan_query (mk_frame (-175, 40, 30, 88)) demo_points None 4 5
    = Ok l
    /\ Forall legal_lat (lats l) /\ Forall legal_lon (lons l)
    /\ ((2 <= 4)%nat ->
        exists first last,
          lats l !! O = Some first /\ lats l !! (4 - 1)%nat = Some last
          /\ first <= 40 /\ 88 <= last)
    /\ ((2 <= 5)%nat ->
        exists first last,
          lons l !! O = Some first /\ lons l !! (5 - 1)%nat = Some last
          /\ first <= -175 /\ 30 <= last).
Proof.
  apply (auto_grid_covers_dataset scan_query (mk_frame (-175, 40, 30, 88))
           demo_points None 4 5 (-175) 40 30 88);
    [discriminate | left; reflexivity | reflexivity | lra..].
Defined.

Lemma sample_ascending (w : R * R) (n i : nat) :
  (S i < n)%nat ->
  (fst w <= snd w -> sample w n i <= sample w n (S i))
  /\ (fst w < snd w -> sample w n i < sample w n (S i)).
Proof.
  intros Hi. pose proof (sample_step w n i) as Hstep.
  assert (Hdiv : 0 < INR (n - 1)) by (apply lt_0_INR; lia).
  assert (Hinv : 0 < / INR (n - 1)) by (apply Rinv_0_lt_compat, Hdiv).
  unfold Rdiv in Hstep. split; intros Hw.
  - assert (0 <= (snd w - fst w) * / INR (n - 1))
      by (apply Rmult_le_pos; lra).
    lra.
  - assert (0 < (snd w - fst w) * / INR (n - 1))
      by (apply Rmult_lt_0_compat; lra).
    lra.
Qed.

Lemma linspace_consecutive (start stop : R) (n i : nat) (x y : R) :
  linspace start stop n !! i = Some x ->
  linspace start stop n !! S i = Some y ->
  (S i < n)%nat
  /\ x = sample (start, stop) n i /\ y = sample (start, stop) n (S i).
Proof.
  intros Hx Hy.
  assert (Hi : (S i < n)%nat).
  { apply lookup_lt_Some in Hy. rewrite linspace_length in Hy. exact Hy. }
  rewrite linspace_lookup in Hx, Hy by lia.
  injection Hx as <-. injection Hy as <-. auto.
Qed.

(** X13. For a resolved extent that is ordered and inside the legal ranges
    the grid runs upwards: consecutive latitudes and consecutive longitudes
    never decrease; for a resolution of at least two the grid starts at or
    below the extent's lower bounds and ends at or above its upper
    bounds. *)
Theorem grid_ascending_and_covering
    (kd_query : list (R * R * R) -> R * R * R -> nat)
    (w : GeoDataFrame) (points : list (R * R)) (e : option (list R))
    (lat_n lon_n : nat) (a b c d : R) :
  points <> [] ->
  resolve_extent e w = [a; b; c; d] ->
  legal_lon a -> a <= b -> legal_lon b ->
  legal_lat c -> c <= d -> legal_lat d ->
  exists l,
    label_stage kd_query w points e lat_n lon_n = Ok l
    /\ (forall i x y, lats l !! i = Some x -> lats l !! S i = Some y ->
          x <= y)
    /\ (forall j x y, lons l !! j = Some x -> lons l !! S j = Some y ->
          x <= y)
    /\ ((2 <= lat_n)%nat ->
        exists first last,
          lats l !! O = Some first /\ lats l !! (lat_n - 1)%nat = Some last
          /\ first <= c /\ d <= last)
    /\ ((2 <= lon_n)%nat ->
        exists first last,
          lons l !! O = Some first /\ lons l !! (lon_n - 1)%nat = Some last
          /\ first <= a /\ b <= last).
Proof.
  intros Hne Hres Ha Hab Hb Hc Hcd Hd.
  destruct (grid_legal kd_query w points e lat_n lon_n a b c d Hne Hres
              Ha Hab Hb Hc Hcd Hd) as (l & Hl & Hlats & Hlons & _).
  exists l. split; [exact Hl|].
  assert (H01 : 0 <= 0.1) by lra.
  destruct Ha as [Ha _], Hb as [_ Hb], Hc as [Hc _], Hd as [_ Hd].
  destruct (window_covers 0.1 (-90) 90 c d H01 Hc Hcd Hd) as [Hw1 Hw2].
  destruct (window_covers 0.1 (-180) 180 a b H01 Ha Hab Hb) as [Hw3 Hw4].
  fold (lat_window c d) in Hw1, Hw2. fold (lon_window a b) in Hw3, Hw4.
  rewrite Hlats, Hlons. split; [|split; [|split]].
  - intros i x y Hx Hy.
    destruct (linspace_consecutive _ _ _ _ _ _ Hx Hy) as (Hi & -> & ->).
    destruct (sample_ascending (fst (lat_window c d), snd (lat_window c d))
                lat_n i Hi) as [Hle _]. cbn [fst snd] in Hle.
    apply Hle; lra.
  - intros j x y Hx Hy.
    destruct (linspace_consecutive _ _ _ _ _ _ Hx Hy) as (Hj & -> & ->).
    destruct (sample_ascending (fst (lon_window a b), snd (lon_window a b))
                lon_n j Hj) as [Hle _]. cbn [fst snd] in Hle.
    apply Hle; lra.
  - intros Hn. exists (fst (lat_window c d)), (snd (lat_window c d)).
    rewrite !linspace_lookup by lia.
    rewrite sample_first, sample_last by lia. cbn [fst snd].
    repeat split; lra.
  - intros Hn. exists (fst (lon_window a b)), (snd (lon_window a b)).
    rewrite !linspace_lookup by lia.
    rewrite sample_first, sample_last by lia. cbn [fst snd].
    repeat split; lra.
Qed.

Lemma grid_ascending_and_covering_witness :
  exists l,
    label_stage scan_query (mk_frame (0, 0, 10, 10)) demo_points
      (Some [100; 120; 20; 40]) 3 4 = Ok l
    /\ (forall i x y, lats l !! i = Some x -> lats l !! S i = Some y ->
          x <= y)
    /\ (forall j x y, lons l !! j = Some x -> lons l !! S j = Some y ->
          x <= y)
    /\ ((2 <= 3)%nat ->
        exists first last,
          lats l !! O = Some first /\ lats l !! (3 - 1)%nat = Some last
          /\ first <= 20 /\ 40 <= last)
    /\ ((2 <= 4)%nat ->
        exists first last,
          lons l !! O = Some first /\ lons l !! (4 - 1)%nat = Some last
          /\ first <= 100 /\ 120 <= last).
Proof.
  apply (grid_ascending_and_covering scan_query (mk_frame (0, 0, 10, 10))
           demo_points (Some [100; 120; 20; 40]) 3 4 100 120 20 40);
    [discriminate | reflexivity | unfold legal_lon, legal_lat; lra..].
Defined.

(** ** Reading the reference dataset *)

(** X15. [load_world] always tries the caller's path first and reads at
    most two paths.  When the caller's file can be read it is the dataset
    returned and nothing else is read, whatever the bundled lookup would
    give; a returned dataset is always the one read from the last path of
    the log; an error means the caller's file could not be read. *)
Theorem load_world_log
    (read_file : string -> option GeoDataFrame)
    (datasets_get_path datasets_get_path' : string -> option string)
    (geojson_path : string) :
  let r := fst (load_world read_file datasets_get_path geojson_path) in
  let reads := snd (load_world read_file datasets_get_path geojson_path) in
  head reads = Some geojson_path
  /\ (length reads <= 2)%nat
  /\ (forall w, read_file geojson_path = Some w ->
        load_world read_file datasets_get_path' geojson_path
        = (Ok w, [geojson_path]))
  /\ (forall w, r = Ok w ->
        exists p, last reads = Some p /\ read_file p = Some w)
  /\ (forall x, r = Raise x -> read_file geojson_path = None).
Proof.
  cbv zeta. unfold load_world.
  destruct (read_file geojson_path) as [w0|] eqn:Hr.
  - cbn [fst snd]. split; [reflexivity|]. split; [simpl; lia|].
    split; [intros w Hw; injection Hw as <-; reflexivity|].
    split; [|intros x Hx; discriminate].
    intros w Hw. injection Hw as <-. exists geojson_path. split; [reflexivity | exact Hr].
  - destruct (datasets_get_path "naturalearth_lowres") as [p|] eqn:Hp.
    + destruct (read_file p) as [w1|] eqn:Hr1; cbn [fst snd].
      * split; [reflexivity|]. split; [simpl; lia|].
        split; [intros w Hw; discriminate|].
        split; [|intros x Hx; discriminate].
        intros w Hw. injection Hw as <-. exists p. split; [reflexivity | exact Hr1].
      * split; [reflexivity|]. split; [simpl; lia|].
        split; [intros w Hw; discriminate|].
        split; [intros w Hw; discriminate | reflexivity].
    + cbn [fst snd]. split; [reflexivity|]. split; [simpl; lia|].
      split; [intros w Hw; discriminate|].
      split; [intros w Hw; discriminate | reflexivity].
Qed.

Lemma load_world_log_witness :
  load_world demo_read_file (fun _ => None) "../uploads/world.geojson"
  = (Ok (mk_frame (0, 0, 10, 10)), ["../uploads/world.geojson"]).
Proof.
  pose proof (load_world_log demo_read_file demo_get_path (fun _ => None)
                "../uploads/world.geojson") as H.
  cbv zeta in H. destruct H as (_ & _ & H & _).
  apply H. reflexivity.
Defined.

(** ** The request handler, continued *)

(** X17. The handler answers with status 400 exactly for the forms its
    three checks reject, with the message of the first failing check in the
    order JSON decoding, number of points (2 to 30), number of colours;
    the dataset, the query and the drawing stage play no part in it, and a
    form that passes the checks is never answered with 400. *)
Theorem handler_rejects_exactly_invalid_forms
    (read_file : string -> option GeoDataFrame)
    (datasets_get_path : string -> option string)
    (kd_query : list (R * R * R) -> R * R * R -> nat)
    (png : Type) (render : RenderInput -> result png) (f : Form) (d : string) :
  api_generate_map read_file datasets_get_path kd_query png render f
  = HTTPException 400 d
  <-> rejection f d.
Proof.
  unfold api_generate_map. split.
  - destruct (decoded f) as [[[pts e] cols]|] eqn:Hd.
    + destruct ((length pts <? 2)%nat || (30 <? length pts)%nat) eqn:Hc.
      * intros H. injection H as <-. apply (reject_count f pts e cols Hd).
        apply orb_true_iff in Hc as [Hc|Hc]; apply Nat.ltb_lt in Hc; lia.
      * apply orb_false_iff in Hc as [Hc1 Hc2].
        apply Nat.ltb_ge in Hc1, Hc2.
        destruct (negb (length cols =? length pts)%nat) eqn:Hcol.
        -- intros H. injection H as <-.
           apply (reject_colors f pts e cols Hd); [lia|].
           apply negb_true_iff, Nat.eqb_neq in Hcol. exact Hcol.
        -- destruct (resolution_size (resolution f)) as [lat_n lon_n].
           destruct (fst (generate_voronoi_map _ _ _ _ _ _ _ _ _ _ _ _ _ _));
             intros H; discriminate.
    + intros H. injection H as <-. apply reject_json, Hd.
  - intros [Hd|pts e cols Hd Hc|pts e cols Hd Hc Hcol]; rewrite Hd.
    + reflexivity.
    + assert (E : (length pts <? 2)%nat || (30 <? length pts)%nat = true).
      { apply orb_true_iff. destruct Hc as [Hc|Hc]; [left|right];
          apply Nat.ltb_lt; exact Hc. }
      rewrite E. reflexivity.
    + assert (E : (length pts <? 2)%nat || (30 <? length pts)%nat = false).
      { apply orb_false_iff. split; apply Nat.ltb_ge; lia. }
      rewrite E. apply Nat.eqb_neq in Hcol. rewrite Hcol. reflexivity.
Qed.

Lemma raster_labels_below (kd_query : list (R * R * R) -> R * R * R -> nat)
    (points : list (R * R)) (grid : list (R * R * R)) :
  (forall sites q, sites <> [] -> nearest sites q (kd_query sites q)) ->
  points <> [] ->
  Forall (fun k => (k < length points)%nat)
    (map (kd_query (map project_point points)) grid).
Proof.
  intros Hkd Hne. apply Forall_lookup. intros n k Hk.
  rewrite lookup_map in Hk.
  destruct (grid !! n) as [q|]; [|discriminate].
  injection Hk as <-.
  assert (Hsites : map project_point points <> []).
  { destruct points; [congruence | discriminate]. }
  destruct (Hkd _ q Hsites) as (s & Hs & _).
  apply lookup_lt_Some in Hs. rewrite length_map in Hs. exact Hs.
Qed.

(** X19. Whatever the resolution string, known or not, the grid size is one
    of (600, 1200), (1200, 2400), (2400, 4800): there are always at least
    two rows and the columns are twice the rows. *)
Theorem resolution_size_range (r : string) :
  (resolution_size r = (600, 1200)%nat \/ resolution_size r = (1200, 2400)%nat
   \/ resolution_size r = (2400, 4800)%nat)
  /\ (2 <= fst (resolution_size r))%nat
  /\ snd (resolution_size r) = (2 * fst (resolution_size r))%nat.
Proof.
  assert (Hcases : resolution_size r = (600, 1200)%nat
                   \/ resolution_size r = (1200, 2400)%nat
                   \/ resolution_size r = (2400, 4800)%nat).
  { destruct (decide (r = "low")) as [-> | Hl]; [left; reflexivity|].
    destruct (decide (r = "medium")) as [-> | Hm];
      [right; left; apply resolution_size_medium|].
    destruct (decide (r = "high")) as [-> | Hh]; [right; right; reflexivity|].
    right; left. apply resolution_size_default; assumption. }
  split; [exact Hcases|].
  destruct Hcases as [-> | [-> | ->]]; cbn [fst snd]; split;
    solve [ do 2 apply le_n_S; apply Nat.le_0_l | reflexivity ].
Qed.

(** ** Contour levels *)

Lemma up_half_below (n : nat) : up (-0.5 - INR n) = (- Z.of_nat n)%Z.
Proof.
  symmetry. apply tech_up; rewrite opp_IZR, <- INR_IZR_INZ; lra.
Qed.

Lemma up_one_minus (n : nat) : up (0.5 - (INR n - 0.5)) = (2 - Z.of_nat n)%Z.
Proof.
  symmetry. apply tech_up; rewrite minus_IZR, <- INR_IZR_INZ; lra.
Qed.

Lemma fill_levels_eq (points : list (R * R)) :
  fill_levels points
  = map (fun i => -0.5 + INR i) (seq 0 (S (length points))).
Proof.
  unfold fill_levels, arange. rewrite up_half_below.
  replace (Z.to_nat (1 - - Z.of_nat (length points))) with (S (length points))
    by lia.
  reflexivity.
Qed.

Lemma line_levels_eq (points : list (R * R)) :
  line_levels points
  = map (fun i => 0.5 + INR i) (seq 0 (length points - 1)).
Proof.
  unfold line_levels, arange. rewrite up_one_minus.
  replace (Z.to_nat (1 - (2 - Z.of_nat (length points))))
    with (length points - 1)%nat by lia.
  reflexivity.
Qed.

(** X20. [contourf] is given N + 1 levels -0.5, 0.5, ..., N - 0.5, one
    apart: N bands, and every site index k below N lies strictly inside the
    k-th band, between level k and level k + 1. *)
Theorem fill_levels_bands (points : list (R * R)) :
  length (fill_levels points) = S (length points)
  /\ forall k, (k < length points)%nat ->
       exists lo hi,
         fill_levels points !! k = Some lo
         /\ fill_levels points !! S k = Some hi
         /\ lo < INR k < hi /\ hi - lo = 1.
Proof.
  rewrite fill_levels_eq. split; [rewrite length_map, length_seq; reflexivity|].
  intros k Hk. exists (-0.5 + INR k), (-0.5 + INR (S k)).
  rewrite !lookup_map, !lookup_seq_lt by lia. cbn [fmap option_fmap option_map].
  cbn [Nat.add]. rewrite S_INR. repeat split; try lra.
Qed.

(** X21. [contour] is given the N - 1 levels 0.5, 1.5, ..., N - 1.5 (none
    for a single site): the k-th separates site index k from k + 1 and is
    the interior level k + 1 of the filled bands. *)
Theorem line_levels_separate (points : list (R * R)) :
  length (line_levels points) = (length points - 1)%nat
  /\ forall k, (S k < length points)%nat ->
       line_levels points !! k = Some (INR k + 0.5)
       /\ INR k < INR k + 0.5 < INR (S k)
       /\ line_levels points !! k = fill_levels points !! S k.
Proof.
  rewrite line_levels_eq, fill_levels_eq.
  split; [rewrite length_map, length_seq; reflexivity|].
  intros k Hk.
  rewrite !lookup_map, !lookup_seq_lt by lia. cbn [fmap option_fmap option_map].
  cbn [Nat.add]. rewrite S_INR. repeat split; try lra; f_equal; lra.
Qed.

(** ** More edge cases *)

(** X22. With a single site every entry of the raster is 0, and [contour]
    is given no level at all.  The nearest-neighbour query is taken with
    its contract. *)
Theorem single_site_raster
    (kd_query : list (R * R * R) -> R * R * R -> nat)
    (w : GeoDataFrame) (p : R * R) (e : option (list R)) (lat_n lon_n : nat) :
  (forall sites q, sites <> [] -> nearest sites q (kd_query sites q)) ->
  exists l,
    label_stage kd_query w [p] e lat_n lon_n = Ok l
    /\ Forall (fun k => k = O) (flat (nearest_city l))
    /\ line_levels [p] = [].
Proof.
  intros Hkd.
  destruct (length_four _ (resolve_extent_length e w)) as (a & b & c & d & Hres).
  assert (Hne : [p] <> []) by discriminate.
  rewrite (label_stage_eq kd_query w [p] e lat_n lon_n a b c d Hne Hres).
  cbv zeta. eexists. split; [reflexivity|]. cbn [nearest_city flat].
  split; [|rewrite line_levels_eq; reflexivity].
  eapply Forall_impl; [apply (raster_labels_below kd_query [p] _ Hkd Hne)|].
  intros k Hk. cbn [length] in Hk. lia.
Qed.

Lemma single_site_raster_witness :
  exists l,
    label_stage scan_query (mk_frame (0, 0, 10, 10)) [(12, 34)] None 2 3 = Ok l
    /\ Forall (fun k => k = O) (flat (nearest_city l))
    /\ line_levels [(12, 34)] = [].
Proof.
  apply (single_site_raster scan_query (mk_frame (0, 0, 10, 10)) (12, 34) None
           2 3).
  exact scan_query_nearest.
Defined.


